(** * The canvas editing core: tool state machine, layer adapter, bounding box

    A shallow embedding of
      - the stage event handlers ([setStageEventHandlers] and its helpers),
      - the [CanvasLayer] entity adapter,
      - the tool reducers of the [canvasV2] slice,
    together with the properties stated about them.

    JavaScript numbers are read as exact numbers: rationals ([Q]) wherever the
    code only adds, subtracts, multiplies, rounds and compares, so that the
    definitions compute; reals ([R]) for the brush-size easing curve, whose
    [Math.pow] has a non-integer exponent.  Rounding error of the IEEE doubles
    is not modelled.

    [await] is sequential composition, and a call whose promise is not
    awaited runs to its end at the call: a handler runs to completion before
    the next event is taken.  An object mutated in place is the object read
    back from its owner: a drawing buffer is read from, and written to, the
    adapter that holds it.

    Of the stage handlers the pointer and key handlers are embedded; the
    wheel handler is represented by its size computation.  Of the adapter
    the drawing buffer, the reconciliation and the bounding box are
    embedded; the transform callbacks installed by the constructor and the
    rasterization are not. *)

From Stdlib Require Import ZArith QArith Qround Qabs List String Bool Lia.
From Stdlib Require Import Reals Qreals Psatz.
Import ListNotations.

(** ** Brush-size easing ([calculateNewBrushSize]) *)

Module BrushSize.
Local Open Scope R_scope.

(** [Math.sign] on a finite number. *)
Definition Math_sign (x : R) : R :=
  if Rlt_dec 0 x then 1 else if Rlt_dec x 0 then -1 else 0.

(** [Math.pow] with a positive base. *)
Definition Math_pow (b e : R) : R := Rpower b e.

(** lodash [clamp(number, lower, upper)]: first capped by [upper], then
    raised to [lower]. *)
Definition clamp (number lower upper : R) : R :=
  let number := if Rle_dec number upper then number else upper in
  if Rle_dec lower number then number else lower.

(** [const targetDelta = Math.sign(delta) * 0.7363 * Math.pow(1.0394, brushSize)] *)
Definition targetDelta (brushSize delta : R) : R :=
  Math_sign delta * 0.7363 * Math_pow 1.0394 brushSize.

(** [const finalDelta = clamp(targetDelta, -20, 20)] *)
Definition finalDelta (brushSize delta : R) : R :=
  clamp (targetDelta brushSize delta) (-20) 20.

Definition calculateNewBrushSize (brushSize delta : R) : R :=
  let newBrushSize := clamp (brushSize + finalDelta brushSize delta) 1 500 in
  newBrushSize.

End BrushSize.


(** ** Numbers, geometry, identifiers *)

Open Scope Q_scope.

(** [Math.round]: the nearest integer, halves going up. *)
Definition Math_round (v : Q) : Q := inject_Z (Qfloor (v + (1 # 2))).

(** [a === b] on two numbers. *)
Definition num_eqb (a b : Q) : bool := Qeq_bool a b.

(** [Math.hypot(dx, dy)], as a real number. *)
Definition hypot (dx dy : Q) : R := sqrt (Q2R dx * Q2R dx + Q2R dy * Q2R dy)%R.

(** [Math.hypot(dx, dy) < bound], decided on the squares: a hypotenuse is
    never negative, so the test fails for every [bound <= 0], and for a
    positive [bound] it is the comparison of the squares. *)
Definition hypot_lt (dx dy bound : Q) : bool :=
  if Qle_bool bound 0 then false
  else negb (Qle_bool (bound * bound) (dx * dx + dy * dy)).

Record Coordinate := { coord_x : Q; coord_y : Q }.

Record Rect := { rect_x : Q; rect_y : Q; rect_width : Q; rect_height : Q }.

Record RgbaColor := { color_r : Z; color_g : Z; color_b : Z; color_a : Z }.

(** Modelled from the spec: [offsetCoord] of [konva/util] is not under
    src/.  It is the "coordinate offsetting" that brings a pointer position
    "into the entity's local coordinate space": the entity's position is
    subtracted. *)
Definition offsetCoord (coord offset : Coordinate) : Coordinate :=
  {| coord_x := coord_x coord - coord_x offset;
     coord_y := coord_y coord - coord_y offset |}.

(** Identifiers.  An identifier is the prefix it was generated with and the
    random part drawn for it; [id_buffer] records that it was asked for an
    in-progress buffer object. *)
Record Id := { id_prefix : string; id_buffer : bool; id_nonce : nat }.

Definition Id_eqb (a b : Id) : bool :=
  String.eqb (id_prefix a) (id_prefix b)
  && Bool.eqb (id_buffer a) (id_buffer b)
  && Nat.eqb (id_nonce a) (id_nonce b).

(** Modelled from the spec: [getPrefixedId] of [konva/util] is not under
    src/; the spec only calls it "identifier generation" that yields "a
    fresh identifier".  The random part is the argument [nonce], drawn by
    the caller from a supply that never hands out a value twice. *)
Definition getPrefixedId (prefix : string) (nonce : nat) : Id :=
  {| id_prefix := prefix; id_buffer := false; id_nonce := nonce |}.

(** Modelled from the spec: [getObjectId] of [konva/util] is not under
    src/.  It is [getPrefixedId] for a drawable object of the given type,
    told whether the object is an in-progress buffer. *)
Definition getObjectId (type : string) (isBuffer : bool) (nonce : nat) : Id :=
  {| id_prefix := type; id_buffer := isBuffer; id_nonce := nonce |}.

(** ** Tools and the tool slice of the document state *)

Module Tool.
Inductive t := move | view | brush | eraser | rect | bbox | eyeDropper.
End Tool.

(** [CanvasV2State['tool']]. *)
Record ToolState := {
  selected : Tool.t;
  selectedBuffer : option Tool.t;
  invertScroll : bool;
  fill : RgbaColor;
  brush_width : Q;
  eraser_width : Q
}.

(** Modelled from the spec: [DEFAULT_RGBA_COLOR] of [store/types] is not
    under src/; the spec only has "a fill color" in the tool state.  Opaque
    white is taken. *)
Definition DEFAULT_RGBA_COLOR : RgbaColor :=
  {| color_r := 255; color_g := 255; color_b := 255; color_a := 1 |}.

(** [initialState.tool] of the slice. *)
Definition initialToolState : ToolState :=
  {| selected := Tool.bbox; selectedBuffer := None; invertScroll := false;
     fill := DEFAULT_RGBA_COLOR; brush_width := 50; eraser_width := 50 |}.

(** The reducers of the slice that write the tool state. *)
Definition toolChanged (payload : Tool.t) (t : ToolState) : ToolState :=
  {| selected := payload; selectedBuffer := selectedBuffer t;
     invertScroll := invertScroll t; fill := fill t;
     brush_width := brush_width t; eraser_width := eraser_width t |}.

Definition toolBufferChanged (payload : option Tool.t) (t : ToolState) : ToolState :=
  {| selected := selected t; selectedBuffer := payload;
     invertScroll := invertScroll t; fill := fill t;
     brush_width := brush_width t; eraser_width := eraser_width t |}.

Definition fillChanged (payload : RgbaColor) (t : ToolState) : ToolState :=
  {| selected := selected t; selectedBuffer := selectedBuffer t;
     invertScroll := invertScroll t; fill := payload;
     brush_width := brush_width t; eraser_width := eraser_width t |}.

Definition brushWidthChanged (payload : Q) (t : ToolState) : ToolState :=
  {| selected := selected t; selectedBuffer := selectedBuffer t;
     invertScroll := invertScroll t; fill := fill t;
     brush_width := Math_round payload; eraser_width := eraser_width t |}.

Definition eraserWidthChanged (payload : Q) (t : ToolState) : ToolState :=
  {| selected := selected t; selectedBuffer := selectedBuffer t;
     invertScroll := invertScroll t; fill := fill t;
     brush_width := brush_width t; eraser_width := Math_round payload |}.

Definition invertScrollChanged (payload : bool) (t : ToolState) : ToolState :=
  {| selected := selected t; selectedBuffer := selectedBuffer t;
     invertScroll := payload; fill := fill t;
     brush_width := brush_width t; eraser_width := eraser_width t |}.

(** ** Drawable objects and entities *)

Record BrushLine := {
  bl_id : Id;
  bl_points : list Q;
  bl_strokeWidth : Q;
  bl_color : RgbaColor;
  bl_clip : option Rect
}.

Record EraserLine := {
  el_id : Id;
  el_points : list Q;
  el_strokeWidth : Q;
  el_clip : option Rect
}.

Record RectShape := { rs_id : Id; rs_rect : Rect; rs_color : RgbaColor }.

Record ImageObject := { im_id : Id; im_name : string; im_width : Q; im_height : Q }.

(** The drawable object, a union discriminated by its [type] field.  The
    constructors carry the discriminants of the adapter; the stage event
    handlers write the rectangle's discriminant ['rect'] where the adapter
    writes ['rect_shape'], and both name the one rectangle variant. *)
Inductive CanvasObject :=
| brush_line (o : BrushLine)
| eraser_line (o : EraserLine)
| rect_shape (o : RectShape)
| image (o : ImageObject).

(** [obj.id], and [mapId]. *)
Definition obj_id (obj : CanvasObject) : Id :=
  match obj with
  | brush_line o => bl_id o
  | eraser_line o => el_id o
  | rect_shape o => rs_id o
  | image o => im_id o
  end.

Definition mapId (obj : CanvasObject) : Id := obj_id obj.

(** [obj.id = id], an assignment to the object's field. *)
Definition set_bl_id (id : Id) (o : BrushLine) : BrushLine :=
  {| bl_id := id; bl_points := bl_points o; bl_strokeWidth := bl_strokeWidth o;
     bl_color := bl_color o; bl_clip := bl_clip o |}.

Definition set_el_id (id : Id) (o : EraserLine) : EraserLine :=
  {| el_id := id; el_points := el_points o; el_strokeWidth := el_strokeWidth o;
     el_clip := el_clip o |}.

Definition set_rs_id (id : Id) (o : RectShape) : RectShape :=
  {| rs_id := id; rs_rect := rs_rect o; rs_color := rs_color o |}.

(** The same on the three variants of a drawing buffer; an image is never
    one and is left as it is. *)
Definition set_obj_id (id : Id) (obj : CanvasObject) : CanvasObject :=
  match obj with
  | brush_line o => brush_line (set_bl_id id o)
  | eraser_line o => eraser_line (set_el_id id o)
  | rect_shape o => rect_shape (set_rs_id id o)
  | image o => image o
  end.

(** The kinds of entity that can be selected.  Every one but the IP adapter
    holds drawable objects. *)
Inductive EntityType :=
| raster_layer | control_layer | regional_guidance | inpaint_mask | ip_adapter.

(** Modelled from the spec: [isDrawableEntity] of [store/types] is not
    under src/.  "The selection targets a drawable entity" when it is one of
    the four kinds the stage event handlers name in their types. *)
Definition isDrawableEntityType (t : EntityType) : bool :=
  match t with
  | ip_adapter => false
  | _ => true
  end.

(** The state of one entity in the document.  The three [_ref] fields are
    the identities of the JavaScript objects that [===] compares: the
    entity state itself, its [position] object and its [objects] array. *)
Record LayerEntity := {
  state_ref : nat;
  entity_id : Id;
  entity_type : EntityType;
  isEnabled : bool;
  opacity : Q;
  position : Coordinate;
  position_ref : nat;
  objects : list CanvasObject;
  objects_ref : nat
}.

Definition isDrawableEntity (state : LayerEntity) : bool :=
  isDrawableEntityType (entity_type state).

(** ** The retained-mode scene of one adapter

    The five Konva nodes a [CanvasLayer] owns, with the attributes the
    adapter reads or writes, and a count of the mutating calls made on
    them. *)

Record Node := {
  visible : bool;
  listening : bool;
  attr_x : Q;
  attr_y : Q;
  attr_width : Q;
  attr_height : Q;
  attr_scaleX : Q;
  attr_scaleY : Q;
  attr_rotation : Q;
  attr_offsetX : Q;
  attr_offsetY : Q;
  attr_opacity : Q;
  attr_strokeWidth : Q
}.

Inductive Attr :=
| X | Y | Width | Height | ScaleX | ScaleY | Rotation
| OffsetX | OffsetY | Opacity | StrokeWidth.

Inductive NodeName := Layer | Bbox | ObjectGroup | Transformer | InteractionRect.

(** A fresh Konva node: visible, at the origin, unscaled, opaque. *)
Definition newNode (isListening : bool) : Node :=
  {| visible := true; listening := isListening;
     attr_x := 0; attr_y := 0; attr_width := 0; attr_height := 0;
     attr_scaleX := 1; attr_scaleY := 1; attr_rotation := 0;
     attr_offsetX := 0; attr_offsetY := 0; attr_opacity := 1;
     attr_strokeWidth := 0 |}.

Definition node_set (a : Attr) (v : Q) (n : Node) : Node :=
  {| visible := visible n; listening := listening n;
     attr_x := match a with X => v | _ => attr_x n end;
     attr_y := match a with Y => v | _ => attr_y n end;
     attr_width := match a with Width => v | _ => attr_width n end;
     attr_height := match a with Height => v | _ => attr_height n end;
     attr_scaleX := match a with ScaleX => v | _ => attr_scaleX n end;
     attr_scaleY := match a with ScaleY => v | _ => attr_scaleY n end;
     attr_rotation := match a with Rotation => v | _ => attr_rotation n end;
     attr_offsetX := match a with OffsetX => v | _ => attr_offsetX n end;
     attr_offsetY := match a with OffsetY => v | _ => attr_offsetY n end;
     attr_opacity := match a with Opacity => v | _ => attr_opacity n end;
     attr_strokeWidth := match a with StrokeWidth => v | _ => attr_strokeWidth n end |}.

Definition node_visible (b : bool) (n : Node) : Node :=
  {| visible := b; listening := listening n;
     attr_x := attr_x n; attr_y := attr_y n;
     attr_width := attr_width n; attr_height := attr_height n;
     attr_scaleX := attr_scaleX n; attr_scaleY := attr_scaleY n;
     attr_rotation := attr_rotation n;
     attr_offsetX := attr_offsetX n; attr_offsetY := attr_offsetY n;
     attr_opacity := attr_opacity n; attr_strokeWidth := attr_strokeWidth n |}.

Definition node_listening (b : bool) (n : Node) : Node :=
  {| visible := visible n; listening := b;
     attr_x := attr_x n; attr_y := attr_y n;
     attr_width := attr_width n; attr_height := attr_height n;
     attr_scaleX := attr_scaleX n; attr_scaleY := attr_scaleY n;
     attr_rotation := attr_rotation n;
     attr_offsetX := attr_offsetX n; attr_offsetY := attr_offsetY n;
     attr_opacity := attr_opacity n; attr_strokeWidth := attr_strokeWidth n |}.

(** [this.konva] of the adapter.  [transformerNodes] is what the transformer
    is attached to, [groupChildren] counts the object groups added under
    the object group, and [calls] counts every mutating call. *)
Record Konva := {
  k_layer : Node;
  k_bbox : Node;
  k_objectGroup : Node;
  k_transformer : Node;
  k_interactionRect : Node;
  transformerNodes : list NodeName;
  groupChildren : nat;
  calls : nat
}.

Definition newKonva : Konva :=
  {| k_layer := newNode false;
     k_bbox := newNode false;
     k_objectGroup := newNode false;
     k_transformer := newNode false;
     k_interactionRect := newNode false;
     transformerNodes := [];
     groupChildren := 0%nat;
     calls := 0%nat |}.

Definition get_node (name : NodeName) (k : Konva) : Node :=
  match name with
  | Layer => k_layer k
  | Bbox => k_bbox k
  | ObjectGroup => k_objectGroup k
  | Transformer => k_transformer k
  | InteractionRect => k_interactionRect k
  end.

(** One mutating call on the node [name]: the node is replaced and the
    call counted. *)
Definition call_node (name : NodeName) (f : Node -> Node) (k : Konva) : Konva :=
  {| k_layer := match name with Layer => f (k_layer k) | _ => k_layer k end;
     k_bbox := match name with Bbox => f (k_bbox k) | _ => k_bbox k end;
     k_objectGroup :=
       match name with ObjectGroup => f (k_objectGroup k) | _ => k_objectGroup k end;
     k_transformer :=
       match name with Transformer => f (k_transformer k) | _ => k_transformer k end;
     k_interactionRect :=
       match name with
       | InteractionRect => f (k_interactionRect k)
       | _ => k_interactionRect k
       end;
     transformerNodes := transformerNodes k;
     groupChildren := groupChildren k;
     calls := S (calls k) |}.

(** [node.setAttrs({ ... })] *)
Definition konva_setAttrs (name : NodeName) (attrs : list (Attr * Q)) : Konva -> Konva :=
  call_node name (fun n => fold_left (fun n av => node_set (fst av) (snd av) n) attrs n).

(** [node.visible(b)], [node.listening(b)], [node.opacity(v)] *)
Definition konva_visible (name : NodeName) (b : bool) : Konva -> Konva :=
  call_node name (node_visible b).

Definition konva_listening (name : NodeName) (b : bool) : Konva -> Konva :=
  call_node name (node_listening b).

Definition konva_opacity (name : NodeName) (v : Q) : Konva -> Konva :=
  call_node name (node_set Opacity v).

(** [transformer.nodes(ns)] *)
Definition konva_transformer_nodes (ns : list NodeName) (k : Konva) : Konva :=
  {| k_layer := k_layer k; k_bbox := k_bbox k; k_objectGroup := k_objectGroup k;
     k_transformer := k_transformer k; k_interactionRect := k_interactionRect k;
     transformerNodes := ns;
     groupChildren := groupChildren k;
     calls := S (calls k) |}.

(** [objectGroup.add(group)] *)
Definition konva_group_add (k : Konva) : Konva :=
  {| k_layer := k_layer k; k_bbox := k_bbox k; k_objectGroup := k_objectGroup k;
     k_transformer := k_transformer k; k_interactionRect := k_interactionRect k;
     transformerNodes := transformerNodes k;
     groupChildren := S (groupChildren k);
     calls := S (calls k) |}.

(** [object.destroy()] of a rendered object: its group leaves the object
    group. *)
Definition konva_group_remove (k : Konva) : Konva :=
  {| k_layer := k_layer k; k_bbox := k_bbox k; k_objectGroup := k_objectGroup k;
     k_transformer := k_transformer k; k_interactionRect := k_interactionRect k;
     transformerNodes := transformerNodes k;
     groupChildren := Nat.pred (groupChildren k);
     calls := S (calls k) |}.

(** ** The rendered objects of an adapter *)

(** One entry of [this.objects]: a [CanvasBrushLine], [CanvasEraserLine],
    [CanvasRect] or [CanvasImage], which of the four being the variant of
    the state it renders. *)
Record ObjectNode := { node_id : Id; node_state : CanvasObject }.

Definition isBrushLineNode (n : ObjectNode) : bool :=
  match node_state n with brush_line _ => true | _ => false end.

Definition isEraserLineNode (n : ObjectNode) : bool :=
  match node_state n with eraser_line _ => true | _ => false end.

Definition isRectNode (n : ObjectNode) : bool :=
  match node_state n with rect_shape _ => true | _ => false end.

Definition isImageNode (n : ObjectNode) : bool :=
  match node_state n with image _ => true | _ => false end.

(** [Map.get], [Map.delete] and [Map.set] of a new key on [this.objects],
    kept in insertion order. *)
Definition objects_get (id : Id) (m : list ObjectNode) : option ObjectNode :=
  find (fun n => Id_eqb (node_id n) id) m.

Definition objects_delete (id : Id) (m : list ObjectNode) : list ObjectNode :=
  filter (fun n => negb (Id_eqb (node_id n) id)) m.

Definition objects_add (n : ObjectNode) (m : list ObjectNode) : list ObjectNode :=
  m ++ [n].

Definition objects_replace (n : ObjectNode) (m : list ObjectNode) : list ObjectNode :=
  map (fun n' => if Id_eqb (node_id n') (node_id n) then n else n') m.

(** The Konva stage as an event handler finds it. *)
Record Stage := {
  stage_pointerPosition : option Coordinate;
  stage_x : Q;
  stage_y : Q;
  stage_scaleX : Q;
  stage_scaleY : Q;
  stage_width : Q;
  stage_height : Q;
  (** [stage.toCanvas({x, y, width: 1, height: 1}).getContext('2d')] and,
      when there is a context, the data of its 1 x 1 image *)
  stage_pixel : Coordinate -> option (list Z)
}.

(** What the collaborators outside src/ contribute.

    - [alignCoordForTool] of [konva/util]: the alignment of a coordinate to
      the stride of a tool of the given width;
    - [getScaledCursorPosition] of [konva/util]: the pointer position in
      document space, absent when the pointer is not over the stage;
    - [BRUSH_SPACING_TARGET_SCALE] of [konva/constants];
    - [objectChanged]: whether the [update] of a rendered object, handed a
      new state, changes what is drawn;
    - [getClientRect]: Konva's content rectangle of the object group. *)
Class Collaborators := {
  alignCoordForTool : Coordinate -> Q -> Coordinate;
  getScaledCursorPosition : Stage -> option Coordinate;
  BRUSH_SPACING_TARGET_SCALE : Q;
  objectChanged : CanvasObject -> CanvasObject -> bool;
  getClientRect : list ObjectNode -> Rect
}.

(** ** Methods that mutate [this] and may throw

    A method is a function of the object it is called on.  It either
    completes with a result and the object as it left it, or an assertion
    throws and the object stays as it was at the throw. *)

Inductive Outcome (S A : Type) :=
| Done (result : A) (s : S)
| Thrown (s : S).
Arguments Done {S A} result s.
Arguments Thrown {S A} s.

Definition M (S A : Type) : Type := S -> Outcome S A.

Definition ret {S A : Type} (v : A) : M S A := fun s => Done v s.

Definition bind {S A B : Type} (m : M S A) (k : A -> M S B) : M S B :=
  fun s =>
    match m s with
    | Done v s' => k v s'
    | Thrown s' => Thrown s'
    end.

(** A statement that cannot throw. *)
Definition exec {S : Type} (f : S -> S) : M S unit := fun s => Done tt (f s).

(** [assert(cond)] *)
Definition assert {S : Type} (cond : bool) : M S unit :=
  fun s => if cond then Done tt s else Thrown s.

Declare Scope method_scope.
Delimit Scope method_scope with method.
Notation "x <- m ;; k" := (bind m (fun x => k))
  (at level 61, m at next level, right associativity) : method_scope.
Notation "m ;; k" := (bind m (fun _ => k))
  (at level 61, right associativity) : method_scope.

(** The state a method leaves behind, thrown or not. *)
Definition final {S A : Type} (o : Outcome S A) : S :=
  match o with
  | Done _ s => s
  | Thrown s => s
  end.

(** ** The layer adapter ([CanvasLayer]) *)

(** The calls an adapter makes on its manager: the state API commands,
    each of which dispatches one command on the document, and the request
    for a pixel bounding box. *)
Inductive Action :=
| onBrushLineAdded (id : Id) (brushLine : BrushLine)
| onEraserLineAdded (id : Id) (eraserLine : EraserLine)
| onRectShapeAdded (id : Id) (rectShape : RectShape)
| onEntityReset (id : Id)
| requestBbox (rect : Rect).

(** The fields of the class, then two of the model: [bboxTimer], whether
    the [debounce] timer of [calculateBbox] is armed, and [outbox], the
    calls made on the manager, oldest first. *)
Record CanvasLayer := {
  adapter_id : Id;
  _drawingBuffer : option CanvasObject;
  _state : LayerEntity;
  konva : Konva;
  adapter_objects : list ObjectNode;
  _bboxNeedsUpdate : bool;
  _isFirstRender : bool;
  isTransforming : bool;
  isPendingBboxCalculation : bool;
  rect : Rect;
  bbox : Rect;
  bboxTimer : bool;
  outbox : list Action
}.

Definition set_drawingBuffer (v : option CanvasObject) (a : CanvasLayer) : CanvasLayer :=
  let 'Build_CanvasLayer i _ s k o n f t p r b tm ob := a in
  Build_CanvasLayer i v s k o n f t p r b tm ob.

Definition set_state (v : LayerEntity) (a : CanvasLayer) : CanvasLayer :=
  let 'Build_CanvasLayer i d _ k o n f t p r b tm ob := a in
  Build_CanvasLayer i d v k o n f t p r b tm ob.

Definition on_konva (g : Konva -> Konva) (a : CanvasLayer) : CanvasLayer :=
  let 'Build_CanvasLayer i d s k o n f t p r b tm ob := a in
  Build_CanvasLayer i d s (g k) o n f t p r b tm ob.

Definition set_objects (v : list ObjectNode) (a : CanvasLayer) : CanvasLayer :=
  let 'Build_CanvasLayer i d s k _ n f t p r b tm ob := a in
  Build_CanvasLayer i d s k v n f t p r b tm ob.

Definition set_isFirstRender (v : bool) (a : CanvasLayer) : CanvasLayer :=
  let 'Build_CanvasLayer i d s k o n _ t p r b tm ob := a in
  Build_CanvasLayer i d s k o n v t p r b tm ob.

Definition set_isTransforming (v : bool) (a : CanvasLayer) : CanvasLayer :=
  let 'Build_CanvasLayer i d s k o n f _ p r b tm ob := a in
  Build_CanvasLayer i d s k o n f v p r b tm ob.

Definition set_isPendingBboxCalculation (v : bool) (a : CanvasLayer) : CanvasLayer :=
  let 'Build_CanvasLayer i d s k o n f t _ r b tm ob := a in
  Build_CanvasLayer i d s k o n f t v r b tm ob.

Definition set_rect (v : Rect) (a : CanvasLayer) : CanvasLayer :=
  let 'Build_CanvasLayer i d s k o n f t p _ b tm ob := a in
  Build_CanvasLayer i d s k o n f t p v b tm ob.

Definition set_bbox (v : Rect) (a : CanvasLayer) : CanvasLayer :=
  let 'Build_CanvasLayer i d s k o n f t p r _ tm ob := a in
  Build_CanvasLayer i d s k o n f t p r v tm ob.

Definition set_bboxTimer (v : bool) (a : CanvasLayer) : CanvasLayer :=
  let 'Build_CanvasLayer i d s k o n f t p r b _ ob := a in
  Build_CanvasLayer i d s k o n f t p r b v ob.

Definition set_outbox (v : list Action) (a : CanvasLayer) : CanvasLayer :=
  let 'Build_CanvasLayer i d s k o n f t p r b tm _ := a in
  Build_CanvasLayer i d s k o n f t p r b tm v.

(** A call on the manager. *)
Definition emit (act : Action) (a : CanvasLayer) : CanvasLayer :=
  set_outbox (outbox a ++ [act]) a.

(** What an adapter reads from its manager during a call. *)
Record Manager := {
  m_toolState : ToolState;          (* stateApi.getToolState() *)
  m_isSelected : bool;              (* stateApi.getIsSelected(this.id) *)
  m_scaledPixel : Q;                (* getScaledPixel() *)
  m_scaledBboxPadding : Q;          (* getScaledBboxPadding() *)
  m_transformerPadding : Q          (* getTransformerPadding() *)
}.

Definition getDefaultRect : Rect :=
  {| rect_x := 0; rect_y := 0; rect_width := 0; rect_height := 0 |}.

(** The constructor, without the handlers it installs on the transformer
    and the interaction rectangle. *)
Definition newCanvasLayer (state : LayerEntity) : CanvasLayer :=
  {| adapter_id := entity_id state;
     _drawingBuffer := None;
     _state := state;
     konva := newKonva;
     adapter_objects := [];
     _bboxNeedsUpdate := true;
     _isFirstRender := true;
     isTransforming := false;
     isPendingBboxCalculation := false;
     rect := getDefaultRect;
     bbox := getDefaultRect;
     bboxTimer := false;
     outbox := [] |}.

Definition getDrawingBuffer (a : CanvasLayer) : option CanvasObject := _drawingBuffer a.

Section Adapter.
Context `{Collaborators}.
Local Open Scope method_scope.

(** Modelled from the spec: the classes of the rendered objects
    ([CanvasBrushLine] and its siblings) are not under src/.  Their
    [update(state, force)] is the "update call that returns whether a visual
    change occurred"; a forced update always redraws. *)
Definition node_update (n : ObjectNode) (obj : CanvasObject) (force : bool)
  : ObjectNode * bool :=
  if force || objectChanged (node_state n) obj
  then ({| node_id := node_id n; node_state := obj |}, true)
  else (n, false).

(** One branch of [_renderObject]: the object is looked up by its id, the
    entry found must be of the class [isClass] of this branch, a missing
    entry is created and added, an entry found is updated. *)
Definition renderAs (isClass : ObjectNode -> bool) (obj : CanvasObject) (force : bool)
  : M CanvasLayer bool :=
  fun a =>
    let found := objects_get (obj_id obj) (adapter_objects a) in
    (assert (match found with Some n => isClass n | None => true end) ;;
     match found with
     | None =>
         exec (fun a =>
                 on_konva konva_group_add
                   (set_objects
                      (objects_add {| node_id := obj_id obj; node_state := obj |}
                                   (adapter_objects a)) a)) ;;
         ret true
     | Some n =>
         let (n', changed) := node_update n obj force in
         exec (fun a => set_objects (objects_replace n' (adapter_objects a)) a) ;;
         ret changed
     end) a.

Definition _renderObject (obj : CanvasObject) (force : bool) : M CanvasLayer bool :=
  match obj with
  | brush_line _ => renderAs isBrushLineNode obj force
  | eraser_line _ => renderAs isEraserLineNode obj force
  | rect_shape _ => renderAs isRectNode obj force
  | image _ => renderAs isImageNode obj force
  end.

Definition setDrawingBuffer (obj : option CanvasObject) : M CanvasLayer unit :=
  match obj with
  | Some o =>
      exec (set_drawingBuffer (Some o)) ;;
      _ <- _renderObject o true ;;
      ret tt
  | None => exec (set_drawingBuffer None)
  end.

(** [finalizeDrawingBuffer].  [nonce] is the random part that
    [getPrefixedId] draws. *)
Definition finalizeDrawingBuffer (nonce : nat) : M CanvasLayer unit :=
  fun a =>
    match _drawingBuffer a with
    | None => Done tt a
    | Some drawingBuffer =>
        (setDrawingBuffer None ;;
         match drawingBuffer with
         | brush_line o =>
             let o := set_bl_id (getPrefixedId "brush_line" nonce) o in
             exec (fun a => emit (onBrushLineAdded (adapter_id a) o) a)
         | eraser_line o =>
             let o := set_el_id (getPrefixedId "brush_line" nonce) o in
             exec (fun a => emit (onEraserLineAdded (adapter_id a) o) a)
         | rect_shape o =>
             let o := set_rs_id (getPrefixedId "brush_line" nonce) o in
             exec (fun a => emit (onRectShapeAdded (adapter_id a) o) a)
         | image _ => ret tt
         end) a
    end.

(** The debounced [calculateBbox]: a call arms the timer; the body,
    [calculateBbox_run] below, runs when the timer fires. *)
Definition calculateBbox (a : CanvasLayer) : CanvasLayer := set_bboxTimer true a.

Definition updateVisibility (arg : option bool) (a : CanvasLayer) : CanvasLayer :=
  let isEnabled := match arg with Some b => b | None => isEnabled (_state a) end in
  let hasObjects :=
    negb (Nat.eqb (List.length (adapter_objects a)) 0)
    || match _drawingBuffer a with Some _ => true | None => false end in
  on_konva (konva_visible Layer (isEnabled && hasObjects)) a.

Definition updatePosition (m : Manager) (arg : option Coordinate) (a : CanvasLayer)
  : CanvasLayer :=
  let position := match arg with Some p => p | None => position (_state a) end in
  let bboxPadding := m_scaledBboxPadding m in
  let a :=
    on_konva (konva_setAttrs ObjectGroup
                [(X, coord_x position + rect_x (bbox a));
                 (Y, coord_y position + rect_y (bbox a));
                 (OffsetX, rect_x (bbox a));
                 (OffsetY, rect_y (bbox a))]) a in
  let a :=
    on_konva (konva_setAttrs Bbox
                [(X, coord_x position + rect_x (bbox a) - bboxPadding);
                 (Y, coord_y position + rect_y (bbox a) - bboxPadding)]) a in
  on_konva (konva_setAttrs InteractionRect
              [(X, coord_x position
                   + rect_x (bbox a) * attr_scaleX (k_interactionRect (konva a)));
               (Y, coord_y position
                   + rect_y (bbox a) * attr_scaleY (k_interactionRect (konva a)))]) a.

Definition updateOpacity (arg : option Q) (a : CanvasLayer) : CanvasLayer :=
  let opacity := match arg with Some v => v | None => opacity (_state a) end in
  on_konva (konva_opacity ObjectGroup opacity) a.

Definition updateInteraction (m : Manager) (arg : option (ToolState * bool))
  (a : CanvasLayer) : CanvasLayer :=
  let toolState := match arg with Some g => fst g | None => m_toolState m end in
  let isSelected := match arg with Some g => snd g | None => m_isSelected m end in
  if Nat.eqb (List.length (adapter_objects a)) 0 then
    on_konva (konva_listening Layer false) a
  else if isSelected && negb (isTransforming a)
          && match selected toolState with Tool.move => true | _ => false end then
    let a := on_konva (konva_listening Layer true) a in
    let a := on_konva (konva_listening Transformer false) a in
    let a := on_konva (konva_transformer_nodes []) a in
    let a := on_konva (konva_visible Bbox true) a in
    on_konva (konva_listening InteractionRect true) a
  else if isSelected && isTransforming a then
    let listening := match selected toolState with Tool.view => false | _ => true end in
    let a := on_konva (konva_listening Layer listening) a in
    let a := on_konva (konva_listening InteractionRect listening) a in
    let a := on_konva (konva_listening Transformer listening) a in
    let a := on_konva (konva_transformer_nodes [InteractionRect]) a in
    on_konva (konva_visible Bbox false) a
  else
    let a := on_konva (konva_listening Layer false) a in
    let a := on_konva (konva_listening Transformer false) a in
    let a := on_konva (konva_transformer_nodes []) a in
    let a := on_konva (konva_visible Bbox false) a in
    on_konva (konva_listening InteractionRect false) a.

Definition updateBbox (m : Manager) (a : CanvasLayer) : CanvasLayer :=
  if isPendingBboxCalculation a then a
  else if num_eqb (rect_width (bbox a)) 0 || num_eqb (rect_height (bbox a)) 0 then
    let a :=
      if negb (_isFirstRender a) && negb (Nat.eqb (List.length (adapter_objects a)) 0)
      then emit (onEntityReset (adapter_id a)) a
      else a in
    let a := on_konva (konva_visible Bbox false) a in
    on_konva (konva_visible InteractionRect false) a
  else
    let a := on_konva (konva_visible Bbox true) a in
    let a := on_konva (konva_visible InteractionRect true) a in
    let onePixel := m_scaledPixel m in
    let bboxPadding := m_scaledBboxPadding m in
    let a :=
      on_konva (konva_setAttrs Bbox
                  [(X, coord_x (position (_state a)) + rect_x (bbox a) - bboxPadding);
                   (Y, coord_y (position (_state a)) + rect_y (bbox a) - bboxPadding);
                   (Width, rect_width (bbox a) + bboxPadding * 2);
                   (Height, rect_height (bbox a) + bboxPadding * 2);
                   (StrokeWidth, onePixel)]) a in
    let a :=
      on_konva (konva_setAttrs InteractionRect
                  [(X, coord_x (position (_state a)) + rect_x (bbox a));
                   (Y, coord_y (position (_state a)) + rect_y (bbox a));
                   (Width, rect_width (bbox a));
                   (Height, rect_height (bbox a))]) a in
    on_konva (konva_setAttrs ObjectGroup
                [(X, coord_x (position (_state a)) + rect_x (bbox a));
                 (Y, coord_y (position (_state a)) + rect_y (bbox a));
                 (OffsetX, rect_x (bbox a));
                 (OffsetY, rect_y (bbox a))]) a.

End Adapter.

Section Reconciliation.
Context `{Collaborators}.
Local Open Scope method_scope.

(** The first loop of [updateObjects]: every rendered object that is no
    longer in the state, and is not the drawing buffer, is deleted and
    destroyed. *)
Fixpoint destroyStale (objectIds : list Id) (rendered : list ObjectNode)
  (didUpdate : bool) (a : CanvasLayer) : bool * CanvasLayer :=
  match rendered with
  | [] => (didUpdate, a)
  | object :: rest =>
      if negb (existsb (Id_eqb (node_id object)) objectIds)
         && negb (match _drawingBuffer a with
                  | Some b => Id_eqb (node_id object) (obj_id b)
                  | None => false
                  end)
      then
        let a := set_objects (objects_delete (node_id object) (adapter_objects a)) a in
        let a := on_konva konva_group_remove a in
        destroyStale objectIds rest true a
      else destroyStale objectIds rest didUpdate a
  end.

(** The second loop of [updateObjects]. *)
Fixpoint renderAll (objs : list CanvasObject) (didUpdate : bool) : M CanvasLayer bool :=
  match objs with
  | [] => ret didUpdate
  | obj :: rest =>
      changed <- _renderObject obj false ;;
      renderAll rest (if changed then true else didUpdate)
  end.

Definition updateObjects (arg : option (list CanvasObject)) : M CanvasLayer unit :=
  fun a =>
    let objects := match arg with Some l => l | None => objects (_state a) end in
    let objectIds := map mapId objects in
    let (didUpdate, a) := destroyStale objectIds (adapter_objects a) false a in
    (didUpdate <- renderAll objects didUpdate ;;
     didUpdate <- (fun a =>
                     match _drawingBuffer a with
                     | Some b =>
                         (changed <- _renderObject b false ;;
                          ret (if changed then true else didUpdate)) a
                     | None => Done didUpdate a
                     end) ;;
     exec (fun a => if didUpdate : bool then calculateBbox a else a) ;;
     exec (set_isFirstRender false)) a.

(** The loop of [calculateBbox] that looks for an eraser line, a clipped
    brush line or an image. *)
Definition needsPixelBbox (rendered : list ObjectNode) : bool :=
  existsb (fun obj =>
             let isEraserLine := isEraserLineNode obj in
             let isImage := isImageNode obj in
             let hasClip :=
               match node_state obj with
               | brush_line o => match bl_clip o with Some _ => true | None => false end
               | _ => false
               end in
             isEraserLine || hasClip || isImage)
          rendered.



(** The body of [calculateBbox], run when the debounce timer fires.
    [hasContext] tells whether the off-screen canvas gave a 2d context. *)
Definition calculateBbox_run (m : Manager) (hasContext : bool) (a : CanvasLayer)
  : CanvasLayer :=
  let a := set_bboxTimer false a in
  let a := set_isPendingBboxCalculation true a in
  if Nat.eqb (List.length (adapter_objects a)) 0 then
    let a := set_rect getDefaultRect a in
    let a := set_bbox getDefaultRect a in
    let a := set_isPendingBboxCalculation false a in
    updateBbox m a
  else
    let rect := getClientRect (adapter_objects a) in
    if negb (needsPixelBbox (adapter_objects a)) then
      let a := set_rect rect a in
      let a := set_bbox rect a in
      let a := set_isPendingBboxCalculation false a in
      updateBbox m a
    else if negb hasContext then a
    else emit (requestBbox rect) a.

(** The argument of [update]. *)
Record UpdateArg := {
  arg_state : LayerEntity;
  arg_toolState : ToolState;
  arg_isSelected : bool
}.

(** [state === this._state] on two entity states. *)
Definition same_state (s1 s2 : LayerEntity) : bool :=
  Nat.eqb (state_ref s1) (state_ref s2).

(** [get(arg, 'state', this._state)] *)
Definition update_state (arg : option UpdateArg) (a : CanvasLayer) : LayerEntity :=
  match arg with
  | Some g => arg_state g
  | None => _state a
  end.

Definition update (m : Manager) (arg : option UpdateArg) : M CanvasLayer unit :=
  fun a =>
    let state := update_state arg a in
    let toolState := match arg with Some g => arg_toolState g | None => m_toolState m end in
    let isSelected := match arg with Some g => arg_isSelected g | None => m_isSelected m end in
    if negb (_isFirstRender a) && same_state state (_state a) then Done tt a
    else
      ((fun a =>
          if _isFirstRender a
             || negb (Nat.eqb (objects_ref state) (objects_ref (_state a)))
          then updateObjects (Some (objects state)) a
          else Done tt a) ;;
       exec (fun a =>
               if _isFirstRender a
                  || negb (Nat.eqb (position_ref state) (position_ref (_state a)))
               then updatePosition m (Some (position state)) a
               else a) ;;
       exec (fun a =>
               if _isFirstRender a
                  || negb (num_eqb (opacity state) (opacity (_state a)))
               then updateOpacity (Some (opacity state)) a
               else a) ;;
       exec (fun a =>
               if _isFirstRender a
                  || negb (Bool.eqb (isEnabled state) (isEnabled (_state a)))
               then updateVisibility (Some (isEnabled state)) a
               else a) ;;
       exec (updateInteraction m (Some (toolState, isSelected))) ;;
       exec (fun a => if _isFirstRender a then updateBbox m a else a) ;;
       exec (set_state state) ;;
       exec (set_isFirstRender false)) a.

Definition startTransform (m : Manager) (a : CanvasLayer) : CanvasLayer :=
  let a := set_isTransforming true a in
  let listening :=
    match selected (m_toolState m) with Tool.view => false | _ => true end in
  let a := on_konva (konva_listening Layer listening) a in
  let a := on_konva (konva_listening InteractionRect listening) a in
  let a := on_konva (konva_listening Transformer listening) a in
  let a := on_konva (konva_transformer_nodes [InteractionRect]) a in
  on_konva (konva_visible Bbox false) a.

Definition resetScale (a : CanvasLayer) : CanvasLayer :=
  let attrs := [(ScaleX, 1); (ScaleY, 1); (Rotation, 0)] in
  let a := on_konva (konva_setAttrs ObjectGroup attrs) a in
  let a := on_konva (konva_setAttrs Bbox attrs) a in
  on_konva (konva_setAttrs InteractionRect attrs) a.

Definition stopTransform (m : Manager) (a : CanvasLayer) : CanvasLayer :=
  let a := set_isTransforming false a in
  let a := resetScale a in
  let a := updatePosition m None a in
  let a := updateBbox m a in
  updateInteraction m None a.

End Reconciliation.

(** ** The manager's world: document, adapters, ephemeral cells *)

(** What the stage event handlers reach through [manager.stateApi]: the
    tool slice and the entities of the document, the adapters, the
    nanostores cells, the clip setting and the generation bounding box.
    [nanoid] is the supply of random parts for identifiers, [heap] the
    supply of object identities, [previewRenders] counts the calls of
    [manager.preview.tool.render()]. *)
Record World := {
  toolState : ToolState;
  entities : list LayerEntity;
  selectedEntityIdentifier : option Id;
  adapters : list CanvasLayer;
  isMouseDown : bool;
  lastMouseDownPos : option Coordinate;
  lastCursorPos : option Coordinate;
  lastAddedPoint : option Coordinate;
  spaceKey : bool;
  colorUnderCursor : option RgbaColor;
  clipToBbox : bool;
  bboxRect : Rect;
  nanoid : nat;
  heap : nat;
  previewRenders : nat
}.

Definition set_toolState (v : ToolState) (w : World) : World :=
  let 'Build_World _ en se ad md lm lc la sk cu cl bb na he pr := w in
  Build_World v en se ad md lm lc la sk cu cl bb na he pr.

Definition set_entities (v : list LayerEntity) (w : World) : World :=
  let 'Build_World ts _ se ad md lm lc la sk cu cl bb na he pr := w in
  Build_World ts v se ad md lm lc la sk cu cl bb na he pr.

Definition set_adapters (v : list CanvasLayer) (w : World) : World :=
  let 'Build_World ts en se _ md lm lc la sk cu cl bb na he pr := w in
  Build_World ts en se v md lm lc la sk cu cl bb na he pr.

Definition set_isMouseDown (v : bool) (w : World) : World :=
  let 'Build_World ts en se ad _ lm lc la sk cu cl bb na he pr := w in
  Build_World ts en se ad v lm lc la sk cu cl bb na he pr.

Definition set_lastMouseDownPos (v : option Coordinate) (w : World) : World :=
  let 'Build_World ts en se ad md _ lc la sk cu cl bb na he pr := w in
  Build_World ts en se ad md v lc la sk cu cl bb na he pr.

Definition set_lastCursorPos (v : option Coordinate) (w : World) : World :=
  let 'Build_World ts en se ad md lm _ la sk cu cl bb na he pr := w in
  Build_World ts en se ad md lm v la sk cu cl bb na he pr.

Definition set_lastAddedPoint (v : option Coordinate) (w : World) : World :=
  let 'Build_World ts en se ad md lm lc _ sk cu cl bb na he pr := w in
  Build_World ts en se ad md lm lc v sk cu cl bb na he pr.

Definition set_spaceKey (v : bool) (w : World) : World :=
  let 'Build_World ts en se ad md lm lc la _ cu cl bb na he pr := w in
  Build_World ts en se ad md lm lc la v cu cl bb na he pr.

Definition set_colorUnderCursor (v : option RgbaColor) (w : World) : World :=
  let 'Build_World ts en se ad md lm lc la sk _ cl bb na he pr := w in
  Build_World ts en se ad md lm lc la sk v cl bb na he pr.

Definition set_nanoid (v : nat) (w : World) : World :=
  let 'Build_World ts en se ad md lm lc la sk cu cl bb _ he pr := w in
  Build_World ts en se ad md lm lc la sk cu cl bb v he pr.

Definition set_heap (v : nat) (w : World) : World :=
  let 'Build_World ts en se ad md lm lc la sk cu cl bb na _ pr := w in
  Build_World ts en se ad md lm lc la sk cu cl bb na v pr.

Definition set_previewRenders (v : nat) (w : World) : World :=
  let 'Build_World ts en se ad md lm lc la sk cu cl bb na he _ := w in
  Build_World ts en se ad md lm lc la sk cu cl bb na he v.

(** [manager.preview.tool.render()] *)
Definition renderPreview (w : World) : World :=
  set_previewRenders (S (previewRenders w)) w.

(** The state API commands on the tool slice: each dispatches the reducer
    of its name. *)
Definition getToolState (w : World) : ToolState := toolState w.
Definition getCurrentFill (w : World) : RgbaColor := fill (toolState w).
Definition setTool (tool : Tool.t) (w : World) : World :=
  set_toolState (toolChanged tool (toolState w)) w.
Definition setToolBuffer (tool : option Tool.t) (w : World) : World :=
  set_toolState (toolBufferChanged tool (toolState w)) w.
Definition setFill (color : RgbaColor) (w : World) : World :=
  set_toolState (fillChanged color (toolState w)) w.
Definition setBrushWidth (width : Q) (w : World) : World :=
  set_toolState (brushWidthChanged width (toolState w)) w.
Definition setEraserWidth (width : Q) (w : World) : World :=
  set_toolState (eraserWidthChanged width (toolState w)) w.

(** The first entity, in document order, with the given id. *)
Definition entity_of (id : Id) (w : World) : option LayerEntity :=
  find (fun s => Id_eqb (entity_id s) id) (entities w).

Definition adapter_of (id : Id) (w : World) : option CanvasLayer :=
  find (fun a => Id_eqb (adapter_id a) id) (adapters w).

(** [this.objects] ... of the document: the persisted object list of an
    entity, empty when there is no such entity. *)
Definition entity_objects (id : Id) (w : World) : list CanvasObject :=
  match entity_of id w with
  | Some s => objects s
  | None => []
  end.

(** The drawing buffer of the adapter of an entity. *)
Definition buffer_of (id : Id) (w : World) : option CanvasObject :=
  match adapter_of id w with
  | Some a => _drawingBuffer a
  | None => None
  end.

Fixpoint entity_modify (id : Id) (f : LayerEntity -> LayerEntity) (l : list LayerEntity)
  : list LayerEntity :=
  match l with
  | [] => []
  | s :: rest =>
      if Id_eqb (entity_id s) id then f s :: rest
      else s :: entity_modify id f rest
  end.

Fixpoint adapter_store (a : CanvasLayer) (l : list CanvasLayer) : list CanvasLayer :=
  match l with
  | [] => []
  | a' :: rest =>
      if Id_eqb (adapter_id a') (adapter_id a) then a :: rest
      else a' :: adapter_store a rest
  end.

(** Modelled from the spec: the reducers of the layers
    ([layerBrushLineAdded], [layerEraserLineAdded], [layerRectAdded],
    [layerReset]) are not under src/.  A committed object is "folded into
    the entity's persisted object list": appended to the objects of the
    entity addressed, in a new state object with a new array; a command
    "addressed to an entity id that no longer exists silently no-ops". *)
Definition objectAdded (id : Id) (obj : CanvasObject) (w : World) : World :=
  match entity_of id w with
  | None => w
  | Some _ =>
      let f s :=
        {| state_ref := heap w; entity_id := entity_id s;
           entity_type := entity_type s; isEnabled := isEnabled s;
           opacity := opacity s; position := position s;
           position_ref := position_ref s;
           objects := objects s ++ [obj]; objects_ref := S (heap w) |} in
      set_heap (S (S (heap w))) (set_entities (entity_modify id f (entities w)) w)
  end.

(** Modelled from the spec: the reset of an entity (see [objectAdded])
    leaves it without objects, "the layer is fully erased". *)
Definition entityReset (id : Id) (w : World) : World :=
  match entity_of id w with
  | None => w
  | Some _ =>
      let f s :=
        {| state_ref := heap w; entity_id := entity_id s;
           entity_type := entity_type s; isEnabled := isEnabled s;
           opacity := opacity s; position := position s;
           position_ref := position_ref s;
           objects := []; objects_ref := S (heap w) |} in
      set_heap (S (S (heap w))) (set_entities (entity_modify id f (entities w)) w)
  end.

(** One call of an adapter on its manager, carried out. *)
Definition perform (w : World) (act : Action) : World :=
  match act with
  | onBrushLineAdded id o => objectAdded id (brush_line o) w
  | onEraserLineAdded id o => objectAdded id (eraser_line o) w
  | onRectShapeAdded id o => objectAdded id (rect_shape o) w
  | onEntityReset id => entityReset id w
  | requestBbox _ => w
  end.

(** A method called on the adapter of the entity [id]: the adapter is
    taken from the world, the method runs on it, the adapter is put back
    and the calls it made on the manager are carried out, in order. *)
Definition settle (a : CanvasLayer) (w : World) : World :=
  fold_left perform (outbox a)
            (set_adapters (adapter_store (set_outbox [] a) (adapters w)) w).

Definition call_adapter (id : Id) (method : M CanvasLayer unit) : M World unit :=
  fun w =>
    match adapter_of id w with
    | None => Done tt w
    | Some a =>
        match method (set_outbox [] a) with
        | Done _ a' => Done tt (settle a' w)
        | Thrown a' => Thrown (settle a' w)
        end
    end.

(** The next random part of the supply. *)
Definition fresh : M World nat :=
  fun w => Done (nanoid w) (set_nanoid (S (nanoid w)) w).

(** Modelled from the spec: [getSelectedEntity] of the state API is not
    under src/.  The "selected entity (state + its adapter)" is the entity
    the selection identifier names together with the adapter of that id;
    there is none while nothing is selected or either is missing. *)
Definition getSelectedEntity (w : World) : option (LayerEntity * CanvasLayer) :=
  match selectedEntityIdentifier w with
  | None => None
  | Some id =>
      match entity_of id w, adapter_of id w with
      | Some s, Some a => Some (s, a)
      | _, _ => None
      end
  end.

(** ** The stage event handlers ([setStageEventHandlers]) *)

Record MouseEvent := { buttons : Z; shiftKey : bool }.

(** A keyboard event; [targetIsTextInput] is
    [e.target instanceof HTMLInputElement || e.target instanceof HTMLTextAreaElement]. *)
Record KeyboardEvent := { key : string; repeat : bool; targetIsTextInput : bool }.

Definition gets {S A : Type} (f : S -> A) : M S A := fun s => Done (f s) s.

Definition getLastPointOfLine (points : list Q) : option Coordinate :=
  if (List.length points <? 2)%nat then None
  else
    match nth_error points (List.length points - 2),
          nth_error points (List.length points - 1) with
    | Some px, Some py => Some {| coord_x := px; coord_y := py |}
    | _, _ => None
    end.

Definition getLastPointOfLastLineOfEntity (entity : LayerEntity) (tool : Tool.t)
  : option Coordinate :=
  match nth_error (objects entity) (List.length (objects entity) - 1) with
  | None => None
  | Some lastObject =>
      match lastObject, tool with
      | brush_line o, Tool.brush => getLastPointOfLine (bl_points o)
      | eraser_line o, Tool.eraser => getLastPointOfLine (el_points o)
      | _, _ => None
      end
  end.

Definition getColorUnderCursor (stage : Stage) : option RgbaColor :=
  match stage_pointerPosition stage with
  | None => None
  | Some pos =>
      match stage_pixel stage pos with
      | None => None
      | Some data =>
          match nth_error data 0, nth_error data 1, nth_error data 2, nth_error data 3 with
          | Some r, Some g, Some b, Some a =>
              Some {| color_r := r; color_g := g; color_b := b; color_a := a |}
          | _, _, _, _ => None
          end
      end
  end.

Definition getIsPrimaryMouseDown (e : MouseEvent) : bool := (buttons e =? 1)%Z.

(** [line.points.push(p.x, p.y)] *)
Definition bl_push (p : Coordinate) (o : BrushLine) : BrushLine :=
  {| bl_id := bl_id o; bl_points := bl_points o ++ [coord_x p; coord_y p];
     bl_strokeWidth := bl_strokeWidth o; bl_color := bl_color o; bl_clip := bl_clip o |}.

Definition el_push (p : Coordinate) (o : EraserLine) : EraserLine :=
  {| el_id := el_id o; el_points := el_points o ++ [coord_x p; coord_y p];
     el_strokeWidth := el_strokeWidth o; el_clip := el_clip o |}.

(** [rect.rect.width = ...; rect.rect.height = ...], the extent of a
    rectangle buffer dragged to the point [p]. *)
Definition rs_drag (p : Coordinate) (o : RectShape) : RectShape :=
  {| rs_id := rs_id o;
     rs_rect := {| rect_x := rect_x (rs_rect o);
                   rect_y := rect_y (rs_rect o);
                   rect_width := Math_round (coord_x p - rect_x (rs_rect o));
                   rect_height := Math_round (coord_y p - rect_y (rs_rect o)) |};
     rs_color := rs_color o |}.

Section Events.
Context `{Collaborators}.
Local Open Scope method_scope.

Definition updateLastCursorPos (stage : Stage) : M World (option Coordinate) :=
  match getScaledCursorPosition stage with
  | None => ret None
  | Some pos => exec (set_lastCursorPos (Some pos)) ;; ret (Some pos)
  end.

Definition getNextPoint (currentPos : Coordinate) (toolState : ToolState)
  (lastAddedPoint : option Coordinate) : option Coordinate :=
  let minSpacingPx :=
    match selected toolState with
    | Tool.brush => brush_width toolState * BRUSH_SPACING_TARGET_SCALE
    | _ => eraser_width toolState * BRUSH_SPACING_TARGET_SCALE
    end in
  match lastAddedPoint with
  | Some lastAddedPoint =>
      if hypot_lt (coord_x lastAddedPoint - coord_x currentPos)
                  (coord_y lastAddedPoint - coord_y currentPos) minSpacingPx
      then None
      else Some currentPos
  | None => Some currentPos
  end.

Definition getClip (stage : Stage) (entity : LayerEntity) (w : World) : Rect :=
  let bboxRect := bboxRect w in
  if clipToBbox w then
    {| rect_x := rect_x bboxRect - coord_x (position entity);
       rect_y := rect_y bboxRect - coord_y (position entity);
       rect_width := rect_width bboxRect;
       rect_height := rect_height bboxRect |}
  else
    {| rect_x := - stage_x stage / stage_scaleX stage - coord_x (position entity);
       rect_y := - stage_y stage / stage_scaleY stage - coord_y (position entity);
       rect_width := stage_width stage / stage_scaleX stage;
       rect_height := stage_height stage / stage_scaleY stage |}.

(** Modelled from the spec: the [renderer] of an adapter, on which the
    handlers call [buffer], [setBuffer], [clearBuffer] and [commitBuffer],
    is not under src/.  They are taken to be the drawing buffer of the
    adapter that is under src/: [buffer] is [getDrawingBuffer] (see
    [buffer_of]), [setBuffer] is [setDrawingBuffer], [clearBuffer] is
    [setDrawingBuffer(null)], by which a buffer "is discarded", and
    [commitBuffer] is [finalizeDrawingBuffer], by which it is "assigned a
    fresh identifier and folded into the entity's persisted object list via
    a dispatched command". *)
Definition setBuffer (id : Id) (obj : CanvasObject) : M World unit :=
  call_adapter id (setDrawingBuffer (Some obj)).

Definition clearBuffer (id : Id) : M World unit :=
  call_adapter id (setDrawingBuffer None).

Definition commitBuffer (id : Id) : M World unit :=
  nonce <- fresh ;;
  call_adapter id (finalizeDrawingBuffer nonce).

(** [if (renderer.buffer) { renderer.commitBuffer(); }] *)
Definition commitPendingBuffer (id : Id) : M World unit :=
  fun w =>
    match buffer_of id w with
    | Some _ => commitBuffer id w
    | None => Done tt w
    end.

(** The buffer a brush stroke starts with. *)
Definition newBrushLine (stage : Stage) (entity : LayerEntity) (points : list Q)
  : M World CanvasObject :=
  nonce <- fresh ;;
  w <- gets (fun w => w) ;;
  ret (brush_line {| bl_id := getObjectId "brush_line" true nonce;
                     bl_points := points;
                     bl_strokeWidth := brush_width (getToolState w);
                     bl_color := getCurrentFill w;
                     bl_clip := Some (getClip stage entity w) |}).

Definition newEraserLine (stage : Stage) (entity : LayerEntity) (points : list Q)
  : M World CanvasObject :=
  nonce <- fresh ;;
  w <- gets (fun w => w) ;;
  ret (eraser_line {| el_id := getObjectId "eraser_line" true nonce;
                      el_points := points;
                      el_strokeWidth := eraser_width (getToolState w);
                      el_clip := Some (getClip stage entity w) |}).

Definition newRect (normalizedPoint : Coordinate) : M World CanvasObject :=
  nonce <- fresh ;;
  w <- gets (fun w => w) ;;
  ret (rect_shape {| rs_id := getObjectId "rect" true nonce;
                     rs_rect := {| rect_x := Math_round (coord_x normalizedPoint);
                                   rect_y := Math_round (coord_y normalizedPoint);
                                   rect_width := 0; rect_height := 0 |};
                     rs_color := getCurrentFill w |}).

(** The guard the four pointer handlers share:
    [selectedEntity && isDrawableEntity(selectedEntity.state) && !$spaceKey.get()].
    The pointer-move handler also asks for [selectedEntity.adapter] and
    [isDrawableEntityAdapter(selectedEntity.adapter)]; the selected entity
    always comes with its adapter, and the adapter of a drawable entity is
    a drawable entity adapter. *)
Definition drawableSelection (w : World) : option LayerEntity :=
  match getSelectedEntity w with
  | Some (state, adapter) =>
      if isDrawableEntity state && negb (spaceKey w) then Some state else None
  | None => None
  end.

Definition mousedown (stage : Stage) (e : MouseEvent) : M World unit :=
  exec (set_isMouseDown true) ;;
  toolState <- gets getToolState ;;
  pos <- updateLastCursorPos stage ;;
  selectedEntity <- gets drawableSelection ;;
  match selected toolState with
  | Tool.eyeDropper =>
      let color := getColorUnderCursor stage in
      exec (set_colorUnderCursor color) ;;
      match color with
      | Some c => exec (setFill c)
      | None => ret tt
      end
  | _ => ret tt
  end ;;
  match pos, selectedEntity with
  | Some pos, Some state =>
      if getIsPrimaryMouseDown e then
        let id := entity_id state in
        exec (set_lastMouseDownPos (Some pos)) ;;
        let normalizedPoint := offsetCoord pos (position state) in
        match selected toolState with
        | Tool.brush =>
            let lastLinePoint := getLastPointOfLastLineOfEntity state Tool.brush in
            let alignedPoint := alignCoordForTool normalizedPoint (brush_width toolState) in
            match (if shiftKey e then lastLinePoint else None) with
            | Some lastLinePoint =>
                commitPendingBuffer id ;;
                buf <- newBrushLine stage state
                         [coord_x lastLinePoint; coord_y lastLinePoint;
                          coord_x alignedPoint; coord_y alignedPoint] ;;
                setBuffer id buf
            | None =>
                commitPendingBuffer id ;;
                buf <- newBrushLine stage state
                         [coord_x alignedPoint; coord_y alignedPoint] ;;
                setBuffer id buf
            end ;;
            exec (set_lastAddedPoint (Some alignedPoint))
        | Tool.eraser =>
            let lastLinePoint := getLastPointOfLastLineOfEntity state Tool.eraser in
            let alignedPoint := alignCoordForTool normalizedPoint (eraser_width toolState) in
            match (if shiftKey e then lastLinePoint else None) with
            | Some lastLinePoint =>
                commitPendingBuffer id ;;
                buf <- newEraserLine stage state
                         [coord_x lastLinePoint; coord_y lastLinePoint;
                          coord_x alignedPoint; coord_y alignedPoint] ;;
                setBuffer id buf
            | None =>
                commitPendingBuffer id ;;
                buf <- newEraserLine stage state
                         [coord_x alignedPoint; coord_y alignedPoint] ;;
                setBuffer id buf
            end ;;
            exec (set_lastAddedPoint (Some alignedPoint))
        | Tool.rect =>
            commitPendingBuffer id ;;
            buf <- newRect normalizedPoint ;;
            setBuffer id buf
        | _ => ret tt
        end
      else ret tt
  | _, _ => ret tt
  end ;;
  exec renderPreview.

Definition mouseup : M World unit :=
  exec (set_isMouseDown false) ;;
  pos <- gets lastCursorPos ;;
  selectedEntity <- gets drawableSelection ;;
  match pos, selectedEntity with
  | Some pos, Some state =>
      let id := entity_id state in
      toolState <- gets getToolState ;;
      match selected toolState with
      | Tool.brush =>
          drawingBuffer <- gets (buffer_of id) ;;
          match drawingBuffer with
          | Some (brush_line _) => commitBuffer id
          | _ => clearBuffer id
          end
      | Tool.eraser =>
          drawingBuffer <- gets (buffer_of id) ;;
          match drawingBuffer with
          | Some (eraser_line _) => commitBuffer id
          | _ => clearBuffer id
          end
      | Tool.rect =>
          drawingBuffer <- gets (buffer_of id) ;;
          match drawingBuffer with
          | Some (rect_shape _) => commitBuffer id
          | _ => clearBuffer id
          end
      | _ => ret tt
      end ;;
      exec (set_lastMouseDownPos None)
  | _, _ => ret tt
  end ;;
  exec renderPreview.

Definition mousemove (stage : Stage) (e : MouseEvent) : M World unit :=
  toolState <- gets getToolState ;;
  pos <- updateLastCursorPos stage ;;
  selectedEntity <- gets drawableSelection ;;
  match selected toolState with
  | Tool.eyeDropper =>
      let color := getColorUnderCursor stage in
      exec (set_colorUnderCursor color)
  | _ => ret tt
  end ;;
  match pos, selectedEntity with
  | Some pos, Some state =>
      if getIsPrimaryMouseDown e then
        let id := entity_id state in
        match selected toolState with
        | Tool.brush =>
            drawingBuffer <- gets (buffer_of id) ;;
            match drawingBuffer with
            | Some (brush_line o) =>
                let lastPoint := getLastPointOfLine (bl_points o) in
                let nextPoint := getNextPoint pos toolState lastPoint in
                match lastPoint, nextPoint with
                | Some lastPoint, Some nextPoint =>
                    let normalizedPoint := offsetCoord nextPoint (position state) in
                    let alignedPoint :=
                      alignCoordForTool normalizedPoint (brush_width toolState) in
                    if negb (num_eqb (coord_x lastPoint) (coord_x alignedPoint))
                       || negb (num_eqb (coord_y lastPoint) (coord_y alignedPoint))
                    then
                      setBuffer id (brush_line (bl_push alignedPoint o)) ;;
                      exec (set_lastAddedPoint (Some alignedPoint))
                    else ret tt
                | _, _ => ret tt
                end
            | Some _ => clearBuffer id
            | None =>
                commitPendingBuffer id ;;
                let normalizedPoint := offsetCoord pos (position state) in
                let alignedPoint :=
                  alignCoordForTool normalizedPoint (brush_width toolState) in
                buf <- newBrushLine stage state
                         [coord_x alignedPoint; coord_y alignedPoint] ;;
                setBuffer id buf ;;
                exec (set_lastAddedPoint (Some alignedPoint))
            end
        | Tool.eraser =>
            drawingBuffer <- gets (buffer_of id) ;;
            match drawingBuffer with
            | Some (eraser_line o) =>
                let lastPoint := getLastPointOfLine (el_points o) in
                let nextPoint := getNextPoint pos toolState lastPoint in
                match lastPoint, nextPoint with
                | Some lastPoint, Some nextPoint =>
                    let normalizedPoint := offsetCoord nextPoint (position state) in
                    let alignedPoint :=
                      alignCoordForTool normalizedPoint (eraser_width toolState) in
                    if negb (num_eqb (coord_x lastPoint) (coord_x alignedPoint))
                       || negb (num_eqb (coord_y lastPoint) (coord_y alignedPoint))
                    then
                      setBuffer id (eraser_line (el_push alignedPoint o)) ;;
                      exec (set_lastAddedPoint (Some alignedPoint))
                    else ret tt
                | _, _ => ret tt
                end
            | Some _ => clearBuffer id
            | None =>
                commitPendingBuffer id ;;
                let normalizedPoint := offsetCoord pos (position state) in
                let alignedPoint :=
                  alignCoordForTool normalizedPoint (eraser_width toolState) in
                buf <- newEraserLine stage state
                         [coord_x alignedPoint; coord_y alignedPoint] ;;
                setBuffer id buf ;;
                exec (set_lastAddedPoint (Some alignedPoint))
            end
        | Tool.rect =>
            drawingBuffer <- gets (buffer_of id) ;;
            match drawingBuffer with
            | Some (rect_shape o) =>
                let normalizedPoint := offsetCoord pos (position state) in
                setBuffer id (rect_shape (rs_drag normalizedPoint o))
            | Some _ => clearBuffer id
            | None => ret tt
            end
        | _ => ret tt
        end
      else ret tt
  | _, _ => ret tt
  end ;;
  exec renderPreview.

Definition mouseleave (stage : Stage) (e : MouseEvent) : M World unit :=
  pos <- updateLastCursorPos stage ;;
  exec (set_lastCursorPos None) ;;
  exec (set_lastMouseDownPos None) ;;
  selectedEntity <- gets drawableSelection ;;
  toolState <- gets getToolState ;;
  match pos, selectedEntity with
  | Some pos, Some state =>
      if getIsPrimaryMouseDown e then
        let id := entity_id state in
        drawingBuffer <- gets (buffer_of id) ;;
        let normalizedPoint := offsetCoord pos (position state) in
        match selected toolState, drawingBuffer with
        | Tool.brush, Some (brush_line o) =>
            let alignedPoint :=
              alignCoordForTool normalizedPoint (brush_width toolState) in
            setBuffer id (brush_line (bl_push alignedPoint o)) ;;
            commitBuffer id
        | Tool.eraser, Some (eraser_line o) =>
            let alignedPoint :=
              alignCoordForTool normalizedPoint (eraser_width toolState) in
            setBuffer id (eraser_line (el_push alignedPoint o)) ;;
            commitBuffer id
        | Tool.rect, Some (rect_shape o) =>
            setBuffer id (rect_shape (rs_drag normalizedPoint o)) ;;
            commitBuffer id
        | _, _ => ret tt
        end
      else ret tt
  | _, _ => ret tt
  end ;;
  exec renderPreview.

Definition onKeyDown (e : KeyboardEvent) : M World unit :=
  if repeat e then ret tt
  else if targetIsTextInput e then ret tt
  else if String.eqb (key e) "Escape" then
    selectedEntity <- gets getSelectedEntity ;;
    match selectedEntity with
    | Some (state, adapter) =>
        clearBuffer (adapter_id adapter) ;;
        exec (set_lastMouseDownPos None)
    | None => ret tt
    end
  else if String.eqb (key e) " " then
    exec (fun w => setToolBuffer (Some (selected (getToolState w))) w) ;;
    exec (setTool Tool.view) ;;
    exec (set_spaceKey true) ;;
    exec (set_lastCursorPos None) ;;
    exec (set_lastMouseDownPos None)
  else ret tt.

Definition onKeyUp (e : KeyboardEvent) : M World unit :=
  if repeat e then ret tt
  else if targetIsTextInput e then ret tt
  else
    (if String.eqb (key e) " " then
       toolBuffer <- gets (fun w => selectedBuffer (getToolState w)) ;;
       exec (setTool (match toolBuffer with Some t => t | None => Tool.move end)) ;;
       exec (setToolBuffer None) ;;
       exec (set_spaceKey false)
     else ret tt) ;;
    exec renderPreview.

End Events.

(** ** Predicates of the statements, and a world to run them in *)


(** A call that returns, rather than throws. *)
Definition completes {S A : Type} (o : Outcome S A) : Prop :=
  match o with
  | Done _ _ => True
  | Thrown _ => False
  end.



(** The object an action adds to the document. *)
Definition action_object (act : Action) : option CanvasObject :=
  match act with
  | onBrushLineAdded _ o => Some (brush_line o)
  | onEraserLineAdded _ o => Some (eraser_line o)
  | onRectShapeAdded _ o => Some (rect_shape o)
  | onEntityReset _ => None
  | requestBbox _ => None
  end.

(** The entity an action is addressed to. *)
Definition action_target (act : Action) : option Id :=
  match act with
  | onBrushLineAdded id _ => Some id
  | onEraserLineAdded id _ => Some id
  | onRectShapeAdded id _ => Some id
  | onEntityReset id => Some id
  | requestBbox _ => None
  end.

(** The cells of the world that neither an adapter nor a command on the
    entities writes. *)
Definition same_cells (w w' : World) : Prop :=
  toolState w' = toolState w /\
  selectedEntityIdentifier w' = selectedEntityIdentifier w /\
  isMouseDown w' = isMouseDown w /\
  lastMouseDownPos w' = lastMouseDownPos w /\
  lastCursorPos w' = lastCursorPos w /\
  lastAddedPoint w' = lastAddedPoint w /\
  spaceKey w' = spaceKey w /\
  colorUnderCursor w' = colorUnderCursor w /\
  clipToBbox w' = clipToBbox w /\
  bboxRect w' = bboxRect w /\
  nanoid w' = nanoid w /\
  previewRenders w' = previewRenders w.

(** The document, the adapters and the selection are the same in two
    worlds. *)
Definition same_document (w w' : World) : Prop :=
  entities w' = entities w /\
  adapters w' = adapters w /\
  selectedEntityIdentifier w' = selectedEntityIdentifier w.

(** The discriminant of a drawable object, as the adapter spells it. *)
Definition obj_type (obj : CanvasObject) : string :=
  match obj with
  | brush_line _ => "brush_line"
  | eraser_line _ => "eraser_line"
  | rect_shape _ => "rect_shape"
  | image _ => "image"
  end.

(** The three variants a drawing buffer can be. *)
Definition isBufferVariant (obj : CanvasObject) : bool :=
  match obj with
  | image _ => false
  | _ => true
  end.


Definition bufferMatchesTool (tool : Tool.t) (obj : CanvasObject) : bool :=
  match tool, obj with
  | Tool.brush, brush_line _ => true
  | Tool.eraser, eraser_line _ => true
  | Tool.rect, rect_shape _ => true
  | _, _ => false
  end.

(** The points of a stroke buffer. *)
Definition stroke_points (buffer : option CanvasObject) : list Q :=
  match buffer with
  | Some (brush_line o) => bl_points o
  | Some (eraser_line o) => el_points o
  | _ => []
  end.

(** The width of the active stroke tool, as [getNextPoint] reads it. *)
Definition activeWidth (t : ToolState) : Q :=
  match selected t with
  | Tool.brush => brush_width t
  | _ => eraser_width t
  end.

(** Collaborators for running the handlers on concrete input: alignment
    rounds to whole pixels, the stage is neither panned nor zoomed, the
    spacing scale is one tenth, every update redraws, and the content
    rectangle is not looked at. *)
Definition plainCollaborators : Collaborators :=
  {| alignCoordForTool :=
       fun c _ => {| coord_x := Math_round (coord_x c); coord_y := Math_round (coord_y c) |};
     getScaledCursorPosition := stage_pointerPosition;
     BRUSH_SPACING_TARGET_SCALE := 1 # 10;
     objectChanged := fun _ _ => true;
     getClientRect := fun _ => getDefaultRect |}.

Definition plainManager : Manager :=
  {| m_toolState := initialToolState; m_isSelected := true;
     m_scaledPixel := 1; m_scaledBboxPadding := 1; m_transformerPadding := 1 |}.

(** A stage with the pointer at [p] and a white pixel under it. *)
Definition stageAt (p : Coordinate) : Stage :=
  {| stage_pointerPosition := Some p;
     stage_x := 0; stage_y := 0; stage_scaleX := 1; stage_scaleY := 1;
     stage_width := 512; stage_height := 512;
     stage_pixel := fun _ => Some [255; 255; 255; 255]%Z |}.

Definition primaryButton : MouseEvent := {| buttons := 1; shiftKey := false |}.

Definition layerId : Id := getPrefixedId "layer" 0.

(** An empty raster layer at [at_], and a document that holds it,
    selected, with the tool [tool] active. *)
Definition emptyLayer (at_ : Coordinate) : LayerEntity :=
  {| state_ref := 0; entity_id := layerId; entity_type := raster_layer;
     isEnabled := true; opacity := 1; position := at_; position_ref := 1;
     objects := []; objects_ref := 2 |}.

Definition worldWith (tool : Tool.t) (at_ : Coordinate) : World :=
  {| toolState := toolChanged tool initialToolState;
     entities := [emptyLayer at_];
     selectedEntityIdentifier := Some layerId;
     adapters := [newCanvasLayer (emptyLayer at_)];
     isMouseDown := false;
     lastMouseDownPos := None;
     lastCursorPos := None;
     lastAddedPoint := None;
     spaceKey := false;
     colorUnderCursor := None;
     clipToBbox := true;
     bboxRect := {| rect_x := 0; rect_y := 0; rect_width := 512; rect_height := 512 |};
     nanoid := 1;
     heap := 3;
     previewRenders := 0 |}.

Definition origin : Coordinate := {| coord_x := 0; coord_y := 0 |}.

(** A brush stroke in progress, under a buffer id drawn earlier. *)
Definition brushBuffer : CanvasObject :=
  brush_line {| bl_id := getObjectId "brush_line" true 0; bl_points := [10; 10];
                bl_strokeWidth := 50; bl_color := DEFAULT_RGBA_COLOR; bl_clip := None |}.

(** The world [worldWith tool origin] in the middle of a drag: the adapter
    holds [buffer] and the cursor was last seen at (10, 10). *)
Definition dragging (tool : Tool.t) (buffer : CanvasObject) : World :=
  set_lastCursorPos (Some {| coord_x := 10; coord_y := 10 |})
    (set_adapters
       [set_drawingBuffer (Some buffer) (newCanvasLayer (emptyLayer origin))]
       (worldWith tool origin)).

(** An eraser stroke, and an adapter that has rendered nothing but it: its
    bounding box is still the zero rectangle. *)
Definition eraserStroke : CanvasObject :=
  eraser_line {| el_id := getPrefixedId "eraser_line" 7; el_points := [0; 0; 5; 5];
                 el_strokeWidth := 50; el_clip := None |}.


(** The argument of a reconciliation pass for the empty layer. *)
Definition emptyLayerArg : UpdateArg :=
  {| arg_state := emptyLayer origin; arg_toolState := initialToolState;
     arg_isSelected := true |}.

(** The events of a session, and a run of them, followed up to the first
    handler that throws. *)
Inductive StageEvent :=
| MouseDown (stage : Stage) (e : MouseEvent)
| MouseMove (stage : Stage) (e : MouseEvent)
| MouseUp
| MouseLeave (stage : Stage) (e : MouseEvent)
| KeyDown (e : KeyboardEvent)
| KeyUp (e : KeyboardEvent)
| SelectTool (tool : Tool.t).

Section Runs.
Context `{Collaborators}.

Definition handle (ev : StageEvent) : M World unit :=
  match ev with
  | MouseDown stage e => mousedown stage e
  | MouseMove stage e => mousemove stage e
  | MouseUp => mouseup
  | MouseLeave stage e => mouseleave stage e
  | KeyDown e => onKeyDown e
  | KeyUp e => onKeyUp e
  | SelectTool tool => exec (setTool tool)
  end.

Fixpoint run (evs : list StageEvent) (w : World) : World :=
  match evs with
  | [] => w
  | ev :: rest =>
      match handle ev w with
      | Done _ w' => run rest w'
      | Thrown w' => w'
      end
  end.

End Runs.
(** * Properties *)

(** ** The brush-size easing curve *)

Module BrushSizeFacts.
Import BrushSize.
Local Open Scope R_scope.

(** Case analysis on every comparison a [clamp] makes. *)
Ltac case_clamp :=
  cbv zeta;
  repeat match goal with
         | |- context [Rle_dec ?a ?b] =>
             lazymatch a with context [Rle_dec _ _] => fail | _ => idtac end;
             lazymatch b with context [Rle_dec _ _] => fail | _ => idtac end;
             destruct (Rle_dec a b); cbv iota
         end;
  try lra.

Lemma clamp_bounds (x lo hi : R) : lo <= hi -> lo <= clamp x lo hi <= hi.
Proof.
  intros Hle. unfold clamp. case_clamp.
Qed.

Lemma clamp_inside (x lo hi : R) : lo <= x <= hi -> clamp x lo hi = x.
Proof.
  intros [H1 H2]. unfold clamp. case_clamp.
Qed.

Lemma clamp_mono (x y lo hi : R) :
  lo <= hi -> x <= y -> clamp x lo hi <= clamp y lo hi.
Proof.
  intros Hle Hxy. unfold clamp. case_clamp.
Qed.

Lemma Math_pow_pos (e : R) : 0 < Math_pow 1.0394 e.
Proof. unfold Math_pow, Rpower. apply exp_pos. Qed.

Lemma targetDelta_sign (w d : R) :
  (0 < d -> 0 < targetDelta w d) /\
  (d < 0 -> targetDelta w d < 0) /\
  (d = 0 -> targetDelta w d = 0).
Proof.
  pose proof (Math_pow_pos w) as Hp.
  unfold targetDelta, Math_sign.
  destruct (Rlt_dec 0 d) as [Hd | Hd]; [| destruct (Rlt_dec d 0) as [Hd' | Hd']];
    repeat split; intros; try lra; nra.
Qed.

Lemma finalDelta_sign (w d : R) :
  (0 < d -> 0 < finalDelta w d) /\
  (d < 0 -> finalDelta w d < 0) /\
  (d = 0 -> finalDelta w d = 0).
Proof.
  destruct (targetDelta_sign w d) as (Hp & Hn & Hz).
  unfold finalDelta, clamp.
  repeat split; intros H;
    [specialize (Hp H) | specialize (Hn H) | specialize (Hz H)];
    case_clamp.
Qed.

(** C4. For a current width in [1, 500] and any wheel delta,
    [calculateNewBrushSize] is a function of its two arguments, the clamped
    per-tick change [finalDelta] has magnitude at most 20 and so has the
    change of the width actually applied, the returned width lies in
    [1, 500], a positive delta never decreases the width, a negative delta
    never increases it, and a zero delta leaves it as it is. *)
Theorem calculateNewBrushSize_spec (brushSize delta : R) :
  1 <= brushSize <= 500 ->
  (forall brushSize' delta', brushSize' = brushSize -> delta' = delta ->
     calculateNewBrushSize brushSize' delta' = calculateNewBrushSize brushSize delta) /\
  Rabs (finalDelta brushSize delta) <= 20 /\
  Rabs (calculateNewBrushSize brushSize delta - brushSize) <= 20 /\
  1 <= calculateNewBrushSize brushSize delta <= 500 /\
  (0 < delta -> brushSize <= calculateNewBrushSize brushSize delta) /\
  (delta < 0 -> calculateNewBrushSize brushSize delta <= brushSize) /\
  (delta = 0 -> calculateNewBrushSize brushSize delta = brushSize).
Proof.
  intros Hw.
  assert (Hfd : -20 <= finalDelta brushSize delta <= 20)
    by (apply clamp_bounds; lra).
  assert (Hin : 1 <= calculateNewBrushSize brushSize delta <= 500)
    by (apply clamp_bounds; lra).
  destruct (finalDelta_sign brushSize delta) as (Hp & Hn & Hz).
  assert (Hself : clamp brushSize 1 500 = brushSize) by (apply clamp_inside; lra).
  assert (Hup : 0 <= finalDelta brushSize delta ->
                brushSize <= calculateNewBrushSize brushSize delta).
  { intros H. rewrite <- Hself at 1. apply clamp_mono; lra. }
  assert (Hdown : finalDelta brushSize delta <= 0 ->
                  calculateNewBrushSize brushSize delta <= brushSize).
  { intros H. rewrite <- Hself at 2. apply clamp_mono; lra. }
  assert (Hstep : Rabs (calculateNewBrushSize brushSize delta - brushSize) <= 20).
  { unfold calculateNewBrushSize in *. apply Rabs_le.
    unfold clamp at 1 2. unfold clamp in Hin. revert Hin. case_clamp. }
  split; [intros ? ? -> ->; reflexivity |].
  split; [apply Rabs_le; lra |].
  split; [exact Hstep |].
  split; [exact Hin |].
  split; [intros H; apply Hup; specialize (Hp H); lra |].
  split; [intros H; apply Hdown; specialize (Hn H); lra |].
  intros H. specialize (Hz H).
  unfold calculateNewBrushSize. rewrite Hz, Rplus_0_r. exact Hself.
Qed.

(** The statement at the default width 50 and one wheel tick. *)
Lemma calculateNewBrushSize_spec_witness :
  1 <= 50 <= 500 /\
  1 <= calculateNewBrushSize 50 1 <= 500 /\
  50 <= calculateNewBrushSize 50 1.
Proof.
  assert (H : 1 <= 50 <= 500) by lra.
  split; [exact H |].
  destruct (calculateNewBrushSize_spec 50 1 H) as (_ & _ & _ & Hr & Hp & _).
  split; [exact Hr | apply Hp; lra].
Defined.

End BrushSizeFacts.

(** ** The layer adapter *)

Lemma Id_eqb_eq (a b : Id) : Id_eqb a b = true <-> a = b.
Proof.
  unfold Id_eqb. destruct a as [p1 b1 n1], b as [p2 b2 n2]; simpl.
  rewrite !andb_true_iff, String.eqb_eq, Bool.eqb_true_iff, Nat.eqb_eq.
  split.
  - intros [[-> ->] ->]. reflexivity.
  - intros E. injection E as -> -> ->. auto.
Qed.

Lemma Id_eqb_refl (a : Id) : Id_eqb a a = true.
Proof. apply Id_eqb_eq. reflexivity. Qed.

Lemma num_eqb_iff (a b : Q) : num_eqb a b = true <-> a == b.
Proof. apply Qeq_bool_iff. Qed.

(** Takes every adapter in sight apart, so that a field read after a
    sequence of assignments computes. *)
Ltac open_layer :=
  repeat match goal with
         | a : CanvasLayer |- _ => destruct a
         end;
  simpl in *.




Section AdapterFacts.
Context `{Collaborators}.

(** What [updateBbox] leaves alone. *)
Lemma updateBbox_frame (m : Manager) (a : CanvasLayer) :
  rect (updateBbox m a) = rect a /\
  bbox (updateBbox m a) = bbox a /\
  adapter_objects (updateBbox m a) = adapter_objects a /\
  _drawingBuffer (updateBbox m a) = _drawingBuffer a /\
  _isFirstRender (updateBbox m a) = _isFirstRender a /\
  isPendingBboxCalculation (updateBbox m a) = isPendingBboxCalculation a /\
  adapter_id (updateBbox m a) = adapter_id a.
Proof.
  unfold updateBbox. open_layer.
  repeat match goal with
         | |- context [if ?c then _ else _] => destruct c; simpl
         end; repeat split; reflexivity.
Qed.




(** C8. When the bounding box of an adapter is computed while its object
    collection [this.objects] is empty, both [rect] and [bbox] are set to
    the zero rectangle [{x: 0, y: 0, width: 0, height: 0}]. *)
Theorem calculateBbox_no_objects (m : Manager) (hasContext : bool) (a : CanvasLayer) :
  adapter_objects a = [] ->
  rect (calculateBbox_run m hasContext a)
    = {| rect_x := 0; rect_y := 0; rect_width := 0; rect_height := 0 |} /\
  bbox (calculateBbox_run m hasContext a)
    = {| rect_x := 0; rect_y := 0; rect_width := 0; rect_height := 0 |}.
Proof.
  intros Hempty. unfold calculateBbox_run.
  replace (adapter_objects (set_isPendingBboxCalculation true (set_bboxTimer false a)))
    with (adapter_objects a) by (open_layer; reflexivity).
  rewrite Hempty. simpl.
  destruct (updateBbox_frame m
              (set_isPendingBboxCalculation false
                 (set_bbox getDefaultRect
                    (set_rect getDefaultRect
                       (set_isPendingBboxCalculation true (set_bboxTimer false a))))))
    as (Hr & Hb & _).
  rewrite Hr, Hb. open_layer. split; reflexivity.
Qed.

End AdapterFacts.

(** The statement on an adapter just constructed. *)
Lemma calculateBbox_no_objects_witness :
  rect (calculateBbox_run (H := plainCollaborators) plainManager true
          (newCanvasLayer (emptyLayer origin))) = getDefaultRect /\
  bbox (calculateBbox_run (H := plainCollaborators) plainManager true
          (newCanvasLayer (emptyLayer origin))) = getDefaultRect.
Proof.
  apply (calculateBbox_no_objects (H := plainCollaborators)). reflexivity.
Defined.

Section ReconciliationFacts.
Context `{Collaborators}.








End ReconciliationFacts.


Section IdempotenceFacts.
Context `{Collaborators}.

Lemma isFirstRender_set v a : _isFirstRender (set_isFirstRender v a) = v.
Proof. open_layer. reflexivity. Qed.

Lemma state_set_isFirstRender v a : _state (set_isFirstRender v a) = _state a.
Proof. open_layer. reflexivity. Qed.

Lemma set_state_read s a : _state (set_state s a) = s.
Proof. open_layer. reflexivity. Qed.

Lemma same_state_refl s : same_state s s = true.
Proof. apply Nat.eqb_refl. Qed.

Lemma same_state_trans s1 s2 s3 :
  same_state s1 s2 = true -> same_state s2 s3 = true -> same_state s1 s3 = true.
Proof. unfold same_state. rewrite !Nat.eqb_eq. congruence. Qed.

(** A pass that completes leaves the first render done and the state it
    was given in [_state]. *)
Lemma update_done m arg a a1 :
  update m arg a = Done tt a1 ->
  _isFirstRender a1 = false /\ same_state (update_state arg a) (_state a1) = true.
Proof.
  unfold update.
  destruct (negb (_isFirstRender a) && same_state (update_state arg a) (_state a)) eqn:Hc.
  - intros E. injection E as <-. apply andb_true_iff in Hc. destruct Hc as [Hf Hs].
    split; [destruct (_isFirstRender a); [discriminate | reflexivity] | exact Hs].
  - unfold bind, exec.
    match goal with
    | |- match ?o with _ => _ end = _ -> _ => destruct o as [[] s' | s']
    end; [| discriminate].
    intros E. injection E as <-.
    rewrite isFirstRender_set, state_set_isFirstRender.
    rewrite set_state_read. split; [reflexivity | apply same_state_refl].
Qed.

(** C6. Once an adapter has completed its first render, [update] called
    with the state reference it already holds returns at once: the adapter
    is returned as it was, so no object, position, opacity, visibility or
    other scene node is touched.  In particular a second [update] with the
    same state reference as a completed first one changes nothing. *)
Theorem update_same_state_is_noop (m : Manager) (arg : option UpdateArg) (a : CanvasLayer) :
  (_isFirstRender a = false ->
   same_state (update_state arg a) (_state a) = true ->
   update m arg a = Done tt a) /\
  (forall a1, update m arg a = Done tt a1 ->
   forall m' arg',
     same_state (update_state arg' a1) (update_state arg a) = true ->
     update m' arg' a1 = Done tt a1).
Proof.
  assert (Hnoop : forall m arg a,
             _isFirstRender a = false ->
             same_state (update_state arg a) (_state a) = true ->
             update m arg a = Done tt a).
  { intros m0 arg0 a0 Hf Hs. unfold update. rewrite Hf, Hs. reflexivity. }
  split; [apply Hnoop |].
  intros a1 Hdone m' arg' Hsame.
  destruct (update_done m arg a a1 Hdone) as [Hf Hs].
  apply Hnoop; [exact Hf |].
  eapply same_state_trans; eassumption.
Qed.

End IdempotenceFacts.

(** Two passes over a fresh adapter with one state: the second returns the
    adapter the first one left, with as many Konva calls made as before. *)
Lemma update_same_state_is_noop_witness :
  let a1 := final (update (H := plainCollaborators) plainManager (Some emptyLayerArg)
                     (newCanvasLayer (emptyLayer origin))) in
  update (H := plainCollaborators) plainManager (Some emptyLayerArg) a1 = Done tt a1 /\
  calls (konva a1) = 1%nat.
Proof.
  intros a1. split; [| reflexivity].
  apply (proj2 (update_same_state_is_noop (H := plainCollaborators) plainManager
                  (Some emptyLayerArg) (newCanvasLayer (emptyLayer origin))) a1).
  - reflexivity.
  - reflexivity.
Defined.

(** ** The world: adapters, document, commit and discard *)

(** Takes the world apart, so that a cell read after a sequence of writes
    computes. *)
Ltac open_world :=
  repeat match goal with
         | w : World |- _ => destruct w
         end;
  simpl in *.

Lemma find_adapter_store (a a' : CanvasLayer) (l : list CanvasLayer) (id : Id) :
  find (fun x => Id_eqb (adapter_id x) id) l = Some a ->
  adapter_id a' = id ->
  find (fun x => Id_eqb (adapter_id x) id) (adapter_store a' l) = Some a'.
Proof.
  intros Hfind Hid. induction l as [| x rest IH]; simpl in *; [discriminate |].
  subst id. destruct (Id_eqb (adapter_id x) (adapter_id a')) eqn:E; simpl.
  - rewrite Id_eqb_refl. reflexivity.
  - rewrite E. apply IH. exact Hfind.
Qed.

Lemma find_entity_modify (f : LayerEntity -> LayerEntity) (l : list LayerEntity)
  (id : Id) (s : LayerEntity) :
  find (fun x => Id_eqb (entity_id x) id) l = Some s ->
  entity_id (f s) = entity_id s ->
  find (fun x => Id_eqb (entity_id x) id) (entity_modify id f l) = Some (f s).
Proof.
  intros Hfind Hid. induction l as [| x rest IH]; simpl in *; [discriminate |].
  destruct (Id_eqb (entity_id x) id) eqn:E; simpl.
  - injection Hfind as <-. rewrite Hid, E. reflexivity.
  - rewrite E. apply IH. exact Hfind.
Qed.

Lemma adapter_of_id (id : Id) (w : World) (a : CanvasLayer) :
  adapter_of id w = Some a -> adapter_id a = id.
Proof.
  unfold adapter_of. intros Hfind. apply find_some in Hfind.
  apply Id_eqb_eq. apply Hfind.
Qed.

Lemma entity_of_id (id : Id) (w : World) (s : LayerEntity) :
  entity_of id w = Some s -> entity_id s = id.
Proof.
  unfold entity_of. intros Hfind. apply find_some in Hfind.
  apply Id_eqb_eq. apply Hfind.
Qed.

Lemma getSelectedEntity_inv (w : World) (s : LayerEntity) (a : CanvasLayer) :
  getSelectedEntity w = Some (s, a) ->
  selectedEntityIdentifier w = Some (entity_id s) /\
  entity_of (entity_id s) w = Some s /\
  adapter_of (entity_id s) w = Some a /\
  adapter_id a = entity_id s.
Proof.
  unfold getSelectedEntity.
  destruct (selectedEntityIdentifier w) as [id |]; [| discriminate].
  destruct (entity_of id w) as [s' |] eqn:Hs; [| discriminate].
  destruct (adapter_of id w) as [a' |] eqn:Ha; [| discriminate].
  intros E. injection E as <- <-.
  pose proof (entity_of_id _ _ _ Hs) as <-.
  pose proof (adapter_of_id _ _ _ Ha) as Hid.
  auto.
Qed.

(** What adding an object to an entity does to the document. *)
Lemma objectAdded_objects (id : Id) (obj : CanvasObject) (w : World) (s : LayerEntity) :
  entity_of id w = Some s ->
  entity_objects id (objectAdded id obj w) = entity_objects id w ++ [obj] /\
  exists s', entity_of id (objectAdded id obj w) = Some s' /\
             entity_id s' = entity_id s /\
             entity_type s' = entity_type s /\
             position s' = position s.
Proof.
  intros Hs. unfold entity_objects, objectAdded. rewrite Hs.
  unfold entity_of in *. open_world.
  erewrite find_entity_modify; [| exact Hs | reflexivity].
  split; [reflexivity |]. eexists. split; [reflexivity |]. simpl. auto.
Qed.

Lemma same_cells_refl (w : World) : same_cells w w.
Proof. unfold same_cells. repeat split; reflexivity. Qed.

Lemma same_cells_trans (w1 w2 w3 : World) :
  same_cells w1 w2 -> same_cells w2 w3 -> same_cells w1 w3.
Proof. unfold same_cells. intuition congruence. Qed.

Lemma perform_frame (w : World) (act : Action) :
  adapters (perform w act) = adapters w /\ same_cells w (perform w act).
Proof.
  destruct act; simpl; unfold objectAdded, entityReset, same_cells;
    try destruct (entity_of id w); open_world; repeat split; reflexivity.
Qed.

Lemma fold_perform_frame (acts : list Action) (w : World) :
  adapters (fold_left perform acts w) = adapters w /\
  same_cells w (fold_left perform acts w).
Proof.
  revert w. induction acts as [| act rest IH]; intros w; simpl.
  - split; [reflexivity | apply same_cells_refl].
  - destruct (IH (perform w act)) as [Ha Hc].
    destruct (perform_frame w act) as [Ha' Hc'].
    split; [congruence | eapply same_cells_trans; eassumption].
Qed.

(** An adapter put back is the adapter found next, and the cells are
    untouched. *)
Lemma settle_adapter (id : Id) (w : World) (a a' : CanvasLayer) :
  adapter_of id w = Some a ->
  adapter_id a' = id ->
  adapter_of id (settle a' w) = Some (set_outbox [] a') /\
  same_cells w (settle a' w).
Proof.
  intros Ha Hid. unfold settle.
  match goal with
  | |- context [fold_left perform ?acts ?w0] =>
      destruct (fold_perform_frame acts w0) as [Fa Fc]
  end.
  split.
  - unfold adapter_of in *. rewrite Fa.
    replace (adapters (set_adapters (adapter_store (set_outbox [] a') (adapters w)) w))
      with (adapter_store (set_outbox [] a') (adapters w)) by (open_world; reflexivity).
    eapply find_adapter_store; [exact Ha | open_layer; exact Hid].
  - eapply same_cells_trans; [| exact Fc].
    unfold same_cells. open_world. repeat split; reflexivity.
Qed.

Lemma settle_silent (w : World) (a' : CanvasLayer) :
  outbox a' = [] -> entities (settle a' w) = entities w.
Proof. intros Ho. unfold settle. rewrite Ho. open_world. reflexivity. Qed.

Lemma settle_added (id : Id) (w : World) (a' : CanvasLayer) (act : Action)
  (obj : CanvasObject) (s : LayerEntity) :
  outbox a' = [act] ->
  action_object act = Some obj ->
  action_target act = Some id ->
  entity_of id w = Some s ->
  entity_objects id (settle a' w) = entity_objects id w ++ [obj] /\
  exists s', entity_of id (settle a' w) = Some s' /\
             entity_id s' = entity_id s /\
             entity_type s' = entity_type s /\
             position s' = position s.
Proof.
  intros Ho Hobj Htgt Hs. unfold settle. rewrite Ho. simpl.
  set (w0 := set_adapters _ w).
  assert (Hs0 : entity_of id w0 = Some s)
    by (unfold entity_of in *; subst w0; open_world; exact Hs).
  assert (Ho0 : entity_objects id w0 = entity_objects id w)
    by (unfold entity_objects, entity_of; subst w0; open_world; reflexivity).
  rewrite <- Ho0.
  destruct act; simpl in *; try discriminate;
    injection Hobj as <-; injection Htgt as ->;
    apply objectAdded_objects; exact Hs0.
Qed.

Lemma call_adapter_final (id : Id) (method : M CanvasLayer unit) (w : World)
  (a : CanvasLayer) :
  adapter_of id w = Some a ->
  final (call_adapter id method w) = settle (final (method (set_outbox [] a))) w /\
  (completes (method (set_outbox [] a)) -> completes (call_adapter id method w)).
Proof.
  intros Ha. unfold call_adapter. rewrite Ha.
  destruct (method (set_outbox [] a)); simpl; auto.
Qed.

Lemma completes_done {S : Type} (o : Outcome S unit) :
  completes o -> o = Done tt (final o).
Proof. destruct o as [[] s | s]; simpl; [reflexivity | contradiction]. Qed.

Section BufferFacts.
Context `{Collaborators}.

(** [finalizeDrawingBuffer] on a buffer: the buffer is cleared and one
    command is issued, carrying the buffer object under the id
    [getPrefixedId('brush_line')] and addressed to the adapter's entity. *)
Lemma finalizeDrawingBuffer_done (nonce : nat) (a : CanvasLayer) (b : CanvasObject) :
  _drawingBuffer a = Some b ->
  isBufferVariant b = true ->
  exists act,
    finalizeDrawingBuffer nonce a = Done tt (emit act (set_drawingBuffer None a)) /\
    action_object act = Some (set_obj_id (getPrefixedId "brush_line" nonce) b) /\
    action_target act = Some (adapter_id a).
Proof.
  intros Hb Hv. unfold finalizeDrawingBuffer. rewrite Hb.
  destruct b as [o | o | o | o]; [| | | discriminate];
    eexists; (split; [unfold bind, exec; simpl; reflexivity |]);
    simpl; split; [reflexivity | open_layer; reflexivity
                  | reflexivity | open_layer; reflexivity
                  | reflexivity | open_layer; reflexivity].
Qed.

(** [setDrawingBuffer(obj)] leaves [obj] in the buffer, whether or not the
    rendering of it throws, and makes no call on the manager. *)
Lemma setDrawingBuffer_final (obj : CanvasObject) (a : CanvasLayer) :
  let a' := final (setDrawingBuffer (Some obj) a) in
  _drawingBuffer a' = Some obj /\ outbox a' = outbox a /\ adapter_id a' = adapter_id a.
Proof.
  simpl. unfold bind, exec.
  assert (Hr : forall isClass a0,
             let a1 := final (renderAs isClass obj true a0) in
             _drawingBuffer a1 = _drawingBuffer a0 /\ outbox a1 = outbox a0 /\
             adapter_id a1 = adapter_id a0).
  { intros isClass a0. unfold renderAs.
    destruct (objects_get (obj_id obj) (adapter_objects a0)) as [n |].
    - destruct (node_update n obj true) as [n' changed].
      unfold bind, assert, exec, ret.
      destruct (isClass n); simpl; [open_layer |]; repeat split; reflexivity.
    - unfold bind, assert, exec, ret. simpl. open_layer. repeat split; reflexivity. }
  assert (Hr' : let a1 := final (_renderObject obj true (set_drawingBuffer (Some obj) a)) in
                _drawingBuffer a1 = Some obj /\ outbox a1 = outbox a /\
                adapter_id a1 = adapter_id a).
  { destruct obj; simpl;
      match goal with
      | |- context [renderAs ?c ?o true ?a0] =>
          destruct (Hr c a0) as (-> & -> & ->)
      end; open_layer; repeat split; reflexivity. }
  destruct (_renderObject obj true (set_drawingBuffer (Some obj) a)); exact Hr'.
Qed.

(** It throws only when an object of another class is rendered under the
    id of [obj]; it does not when no object is rendered under that id. *)
Lemma setDrawingBuffer_completes (obj : CanvasObject) (a : CanvasLayer) :
  objects_get (obj_id obj) (adapter_objects a) = None ->
  completes (setDrawingBuffer (Some obj) a).
Proof.
  intros Hnone. simpl. unfold bind, exec.
  assert (Hr : forall isClass,
             exists a1, renderAs isClass obj true (set_drawingBuffer (Some obj) a)
                        = Done true a1).
  { intros isClass. unfold renderAs.
    replace (adapter_objects (set_drawingBuffer (Some obj) a)) with (adapter_objects a)
      by (open_layer; reflexivity).
    rewrite Hnone. unfold bind, assert, exec, ret. eexists. reflexivity. }
  destruct obj; simpl;
    match goal with
    | |- context [renderAs ?c ?o true ?a0] => destruct (Hr c) as [a1 ->]
    end; exact I.
Qed.


(** Committing: the buffer is gone and the buffer object, under the id
    [getPrefixedId('brush_line')] drawn for it, is the new last object of
    the entity of the adapter. *)
Lemma commitBuffer_spec (id : Id) (w : World) (a : CanvasLayer) (b : CanvasObject)
  (s : LayerEntity) :
  adapter_of id w = Some a ->
  entity_of id w = Some s ->
  _drawingBuffer a = Some b ->
  isBufferVariant b = true ->
  exists w',
    commitBuffer id w = Done tt w' /\
    buffer_of id w' = None /\
    entity_objects id w'
      = entity_objects id w ++ [set_obj_id (getPrefixedId "brush_line" (nanoid w)) b] /\
    (exists s', entity_of id w' = Some s' /\ entity_id s' = entity_id s /\
                entity_type s' = entity_type s /\ position s' = position s) /\
    same_cells (set_nanoid (S (nanoid w)) w) w'.
Proof.
  intros Ha Hs Hb Hv.
  pose proof (adapter_of_id _ _ _ Ha) as Hid.
  unfold commitBuffer, bind, fresh.
  set (w1 := set_nanoid (S (nanoid w)) w).
  assert (Ha1 : adapter_of id w1 = Some a)
    by (unfold adapter_of in *; subst w1; open_world; exact Ha).
  assert (Hs1 : entity_of id w1 = Some s)
    by (unfold entity_of in *; subst w1; open_world; exact Hs).
  assert (Ho1 : entity_objects id w1 = entity_objects id w)
    by (unfold entity_objects, entity_of; subst w1; open_world; reflexivity).
  clearbody w1.
  destruct (finalizeDrawingBuffer_done (nanoid w) (set_outbox [] a) b)
    as (act & Hfin & Hobj & Htgt); [open_layer; exact Hb | exact Hv |].
  destruct (call_adapter_final id (finalizeDrawingBuffer (nanoid w)) w1 a Ha1) as [Hf Hc].
  rewrite Hfin in Hf, Hc. simpl in Hf.
  exists (final (call_adapter id (finalizeDrawingBuffer (nanoid w)) w1)).
  split; [apply completes_done, Hc; exact I |].
  rewrite Hf.
  set (a' := emit act (set_drawingBuffer None (set_outbox [] a))).
  assert (Hid' : adapter_id a' = id) by (subst a'; open_layer; exact Hid).
  destruct (settle_adapter id w1 a a' Ha1 Hid') as [Ha' Hcells].
  destruct (settle_added id w1 a' act
              (set_obj_id (getPrefixedId "brush_line" (nanoid w)) b) s) as [Hadd Hent];
    [subst a'; open_layer; reflexivity | exact Hobj
    | rewrite Htgt; f_equal; open_layer; exact Hid | exact Hs1 |].
  split; [| split; [| split]].
  - unfold buffer_of. rewrite Ha'. subst a'. open_layer. reflexivity.
  - rewrite Hadd, Ho1. reflexivity.
  - exact Hent.
  - exact Hcells.
Qed.

(** Setting the buffer: the object is the buffer afterwards, thrown or
    not, and the document is as it was. *)
Lemma setBuffer_final (id : Id) (obj : CanvasObject) (w : World) (a : CanvasLayer) :
  adapter_of id w = Some a ->
  let w' := final (setBuffer id obj w) in
  buffer_of id w' = Some obj /\
  entities w' = entities w /\
  same_cells w w' /\
  (objects_get (obj_id obj) (adapter_objects a) = None -> completes (setBuffer id obj w)).
Proof.
  intros Ha w'. pose proof (adapter_of_id _ _ _ Ha) as Hid.
  destruct (call_adapter_final id (setDrawingBuffer (Some obj)) w a Ha) as [Hf Hc].
  subst w'. unfold setBuffer. rewrite Hf.
  destruct (setDrawingBuffer_final obj (set_outbox [] a)) as (Hb & Ho & Hi).
  set (a' := final (setDrawingBuffer (Some obj) (set_outbox [] a))) in *.
  assert (Hid' : adapter_id a' = id) by (rewrite Hi; open_layer; exact Hid).
  destruct (settle_adapter id w a a' Ha Hid') as [Ha' Hcells].
  split; [| split; [| split]].
  - unfold buffer_of. rewrite Ha'.
    replace (_drawingBuffer (set_outbox [] a')) with (_drawingBuffer a')
      by (destruct a'; reflexivity).
    exact Hb.
  - apply settle_silent. rewrite Ho. open_layer. reflexivity.
  - exact Hcells.
  - intros Hnone. apply Hc. apply setDrawingBuffer_completes.
    open_layer. exact Hnone.
Qed.

End BufferFacts.

(** ** Committing and discarding the drawing buffer *)

Lemma same_document_reads (w w' : World) (id : Id) :
  same_document w w' ->
  adapter_of id w' = adapter_of id w /\
  entity_of id w' = entity_of id w /\
  buffer_of id w' = buffer_of id w /\
  entity_objects id w' = entity_objects id w /\
  getSelectedEntity w' = getSelectedEntity w.
Proof.
  unfold same_document, adapter_of, entity_of, buffer_of, entity_objects,
    getSelectedEntity, adapter_of, entity_of.
  intros (-> & -> & ->). repeat split; reflexivity.
Qed.

(** Solves a goal that says a cell written to a world leaves another cell,
    or the document, as it was. *)
Ltac frame :=
  unfold same_document, same_cells, renderPreview, getToolState, getCurrentFill,
    setTool, setToolBuffer, setFill;
  open_world; repeat split; reflexivity.

Section CommitFacts.
Context `{Collaborators}.

(** C10. Whatever its variant, brush line, eraser line or rectangle, the
    drawing buffer that [finalizeDrawingBuffer] commits is given the id
    [getPrefixedId('brush_line')]: the one command issued carries the
    object under an id with the prefix [brush_line] and with its variant
    unchanged, and so does the object that the commit persists as the last
    one of the entity.  The prefix of a persisted id therefore does not
    tell the variant. *)
Theorem committed_id_has_brush_line_prefix (nonce : nat) (a : CanvasLayer)
  (b : CanvasObject) :
  _drawingBuffer a = Some b ->
  isBufferVariant b = true ->
  (exists act obj,
     finalizeDrawingBuffer nonce a = Done tt (emit act (set_drawingBuffer None a)) /\
     action_object act = Some obj /\
     obj_id obj = getPrefixedId "brush_line" nonce /\
     id_prefix (obj_id obj) = "brush_line"%string /\
     obj_type obj = obj_type b) /\
  (forall id w s,
     adapter_of id w = Some a -> entity_of id w = Some s -> nanoid w = nonce ->
     exists obj,
       entity_objects id (final (commitBuffer id w)) = entity_objects id w ++ [obj] /\
       id_prefix (obj_id obj) = "brush_line"%string /\
       obj_type obj = obj_type b).
Proof.
  intros Hb Hv.
  assert (Hset : obj_id (set_obj_id (getPrefixedId "brush_line" nonce) b)
                 = getPrefixedId "brush_line" nonce /\
                 obj_type (set_obj_id (getPrefixedId "brush_line" nonce) b) = obj_type b).
  { destruct b; [| | | discriminate]; split; reflexivity. }
  destruct Hset as [Hid Hty]. split.
  - destruct (finalizeDrawingBuffer_done nonce a b Hb Hv) as (act & Hfin & Hobj & _).
    exists act, (set_obj_id (getPrefixedId "brush_line" nonce) b).
    rewrite Hid. auto.
  - intros id w s Ha Hs Hn.
    destruct (commitBuffer_spec id w a b s Ha Hs Hb Hv) as (w' & Hdone & _ & Hobjs & _).
    rewrite Hdone. simpl. rewrite Hobjs, Hn.
    exists (set_obj_id (getPrefixedId "brush_line" nonce) b).
    rewrite Hid. auto.
Qed.


End CommitFacts.

(** The commit of an eraser stroke: the command carries it under a
    [brush_line] id. *)
Lemma committed_id_has_brush_line_prefix_witness :
  exists act obj,
    finalizeDrawingBuffer (H := plainCollaborators) 1
      (set_drawingBuffer (Some eraserStroke) (newCanvasLayer (emptyLayer origin)))
    = Done tt (emit act (set_drawingBuffer None
                           (set_drawingBuffer (Some eraserStroke)
                              (newCanvasLayer (emptyLayer origin))))) /\
    action_object act = Some obj /\
    obj_id obj = getPrefixedId "brush_line" 1 /\
    id_prefix (obj_id obj) = "brush_line"%string /\
    obj_type obj = "eraser_line"%string.
Proof.
  apply (committed_id_has_brush_line_prefix (H := plainCollaborators) 1
           (set_drawingBuffer (Some eraserStroke) (newCanvasLayer (emptyLayer origin)))
           eraserStroke); reflexivity.
Defined.



(** ** The space bar and the colour picker *)

Section KeyFacts.
Context `{Collaborators}.

Lemma setTool_reads (t : Tool.t) (w : World) :
  selected (toolState (setTool t w)) = t /\
  selectedBuffer (toolState (setTool t w)) = selectedBuffer (toolState w) /\
  spaceKey (setTool t w) = spaceKey w.
Proof. unfold setTool. open_world. repeat split; reflexivity. Qed.

Lemma setTools_buffer (tools : list Tool.t) (w : World) :
  selectedBuffer (toolState (fold_left (fun w t => setTool t w) tools w))
  = selectedBuffer (toolState w).
Proof.
  revert w. induction tools as [| t rest IH]; intros w; simpl.
  - reflexivity.
  - rewrite IH. apply setTool_reads.
Qed.

(** What the two key handlers do to the tool state on a space key that is
    neither a repeat nor typed into a text input. *)
Lemma onKeyDown_space (e : KeyboardEvent) (w : World) :
  key e = " "%string -> repeat e = false -> targetIsTextInput e = false ->
  exists w1,
    onKeyDown e w = Done tt w1 /\
    selectedBuffer (toolState w1) = Some (selected (toolState w)) /\
    selected (toolState w1) = Tool.view /\
    spaceKey w1 = true.
Proof.
  intros Hk Hr Ht. unfold onKeyDown. rewrite Hk, Hr, Ht. simpl.
  eexists. split; [reflexivity |].
  unfold setTool, setToolBuffer, getToolState. open_world. repeat split; reflexivity.
Qed.

Lemma onKeyUp_space (e : KeyboardEvent) (w : World) :
  key e = " "%string -> repeat e = false -> targetIsTextInput e = false ->
  exists w2,
    onKeyUp e w = Done tt w2 /\
    selected (toolState w2)
      = match selectedBuffer (toolState w) with Some t => t | None => Tool.move end /\
    selectedBuffer (toolState w2) = None /\
    spaceKey w2 = false.
Proof.
  intros Hk Hr Ht. unfold onKeyUp. rewrite Hk, Hr, Ht. simpl.
  eexists. split; [reflexivity |].
  unfold setTool, setToolBuffer, getToolState, renderPreview.
  open_world. repeat split; reflexivity.
Qed.

(** C7. A space key press that is not an auto-repeat and does not target a
    text input stores the selected tool in the tool buffer and selects the
    view tool; such a release selects the buffered tool, or the move tool
    when the buffer is empty, and empties the buffer.  So a press followed
    by a release ends with the tool that was selected before the press,
    whatever tools were selected in between.  An auto-repeat event, and an
    event that targets a text input, changes nothing at all. *)
Theorem space_bar_restores_tool (w : World) (down up : KeyboardEvent) :
  key down = " "%string -> repeat down = false -> targetIsTextInput down = false ->
  key up = " "%string -> repeat up = false -> targetIsTextInput up = false ->
  (exists w1,
     onKeyDown down w = Done tt w1 /\
     selectedBuffer (toolState w1) = Some (selected (toolState w)) /\
     selected (toolState w1) = Tool.view /\
     spaceKey w1 = true) /\
  (exists w2,
     onKeyUp up w = Done tt w2 /\
     selected (toolState w2)
       = match selectedBuffer (toolState w) with Some t => t | None => Tool.move end /\
     selectedBuffer (toolState w2) = None /\
     spaceKey w2 = false) /\
  (forall tools : list Tool.t,
     let held := fold_left (fun w t => setTool t w) tools (final (onKeyDown down w)) in
     selected (toolState (final (onKeyUp up held))) = selected (toolState w)) /\
  (forall e : KeyboardEvent,
     repeat e = true \/ targetIsTextInput e = true ->
     onKeyDown e w = Done tt w /\ onKeyUp e w = Done tt w).
Proof.
  intros Hdk Hdr Hdt Huk Hur Hut.
  split; [apply onKeyDown_space; assumption |].
  split; [apply onKeyUp_space; assumption |].
  split.
  - intros tools held.
    destruct (onKeyDown_space down w Hdk Hdr Hdt) as (w1 & Hdown & Hbuf & _).
    subst held. rewrite Hdown. simpl final.
    destruct (onKeyUp_space up (fold_left (fun w t => setTool t w) tools w1) Huk Hur Hut)
      as (w2 & Hup & Hsel & _).
    rewrite Hup. simpl final. rewrite Hsel, setTools_buffer, Hbuf. reflexivity.
  - intros e [Hr | Ht]; unfold onKeyDown, onKeyUp.
    + rewrite Hr. split; reflexivity.
    + rewrite Ht. destruct (repeat e); split; reflexivity.
Qed.



End KeyFacts.

(** The round trip from the brush, with the eraser selected while the bar
    is held. *)
Lemma space_bar_restores_tool_witness :
  let space := {| key := " "; repeat := false; targetIsTextInput := false |} in
  selected (toolState
              (final (onKeyUp space
                        (fold_left (fun w t => setTool t w) [Tool.eraser]
                           (final (onKeyDown (H := plainCollaborators) space
                                     (worldWith Tool.brush origin)))))))
  = Tool.brush.
Proof.
  intros space.
  destruct (space_bar_restores_tool (H := plainCollaborators)
              (worldWith Tool.brush origin) space space
              eq_refl eq_refl eq_refl eq_refl eq_refl eq_refl) as (_ & _ & Htrip & _).
  exact (Htrip [Tool.eraser]).
Defined.


(** ** A rectangle pressed and released on the spot *)

Section RectFacts.
Context `{Collaborators}.



End RectFacts.



(** ** The spacing of the points of a stroke *)

(** [hypot_lt] decides [Math.hypot(dx, dy) < bound]. *)
Lemma hypot_lt_correct (dx dy bound : Q) :
  hypot_lt dx dy bound = true <-> (hypot dx dy < Q2R bound)%R.
Proof.
  unfold hypot_lt, hypot.
  set (s := (Q2R dx * Q2R dx + Q2R dy * Q2R dy)%R).
  assert (Hs : (0 <= s)%R) by (subst s; nra).
  assert (Hsq : Q2R (dx * dx + dy * dy) = s)
    by (subst s; rewrite Q2R_plus, !Q2R_mult; reflexivity).
  assert (Hbb : Q2R (bound * bound) = (Q2R bound * Q2R bound)%R) by apply Q2R_mult.
  pose proof (sqrt_pos s) as Hroot.
  destruct (Qle_bool bound 0) eqn:Hb0.
  - apply Qle_bool_iff, Qle_Rle in Hb0. rewrite RMicromega.Q2R_0 in Hb0.
    split; [discriminate | intros Hlt; lra].
  - assert (Hpos : (0 < Q2R bound)%R).
    { apply Rnot_le_lt. intros Hle. rewrite <- RMicromega.Q2R_0 in Hle.
      apply Rle_Qle, Qle_bool_iff in Hle. congruence. }
    rewrite negb_true_iff. split.
    + intros Hle.
      assert (Hlt : (s < Q2R bound * Q2R bound)%R).
      { apply Rnot_le_lt. intros Hge. rewrite <- Hbb, <- Hsq in Hge.
        apply Rle_Qle, Qle_bool_iff in Hge. congruence. }
      rewrite <- (sqrt_square (Q2R bound)) by lra.
      apply sqrt_lt_1_alt. lra.
    + intros Hlt. destruct (Qle_bool (bound * bound) (dx * dx + dy * dy)) eqn:Hle;
        [| reflexivity].
      apply Qle_bool_iff, Qle_Rle in Hle. rewrite Hbb, Hsq in Hle.
      apply sqrt_le_1_alt in Hle. rewrite sqrt_square in Hle by lra. lra.
Qed.

Lemma hypot_ge_correct (dx dy bound : Q) :
  hypot_lt dx dy bound = false <-> (Q2R bound <= hypot dx dy)%R.
Proof.
  pose proof (hypot_lt_correct dx dy bound) as Hc.
  destruct (hypot_lt dx dy bound); split; intros Hx; try reflexivity; try discriminate.
  - assert (hypot dx dy < Q2R bound)%R by (apply Hc; reflexivity). lra.
  - apply Rnot_lt_le. intros Hlt. apply Hc in Hlt. discriminate.
Qed.

Section StrokeFacts.
Context `{Collaborators}.

Lemma getNextPoint_spec (pos : Coordinate) (t : ToolState) (last : Coordinate) :
  getNextPoint pos t (Some last)
  = if hypot_lt (coord_x last - coord_x pos) (coord_y last - coord_y pos)
                (activeWidth t * BRUSH_SPACING_TARGET_SCALE)
    then None else Some pos.
Proof. unfold getNextPoint, activeWidth. destruct (selected t); reflexivity. Qed.

Lemma differs_test (p q : Coordinate) :
  negb (num_eqb (coord_x p) (coord_x q)) || negb (num_eqb (coord_y p) (coord_y q)) = true
  <-> ~ (coord_x p == coord_x q /\ coord_y p == coord_y q).
Proof.
  rewrite <- negb_andb, negb_true_iff, <- not_true_iff_false, andb_true_iff,
    !num_eqb_iff. reflexivity.
Qed.

(** What a pointer move does to a stroke buffer of the active tool. *)
Lemma mousemove_stroke_spec (stage : Stage) (e : MouseEvent) (w : World)
  (state : LayerEntity) (a : CanvasLayer) (buf : CanvasObject) (pos : Coordinate) :
  getSelectedEntity w = Some (state, a) ->
  isDrawableEntity state = true ->
  spaceKey w = false ->
  getScaledCursorPosition stage = Some pos ->
  getIsPrimaryMouseDown e = true ->
  _drawingBuffer a = Some buf ->
  selected (toolState w) = Tool.brush \/ selected (toolState w) = Tool.eraser ->
  bufferMatchesTool (selected (toolState w)) buf = true ->
  let points := stroke_points (Some buf) in
  let aligned :=
    alignCoordForTool (offsetCoord pos (position state)) (activeWidth (toolState w)) in
  let minSpacingPx := activeWidth (toolState w) * BRUSH_SPACING_TARGET_SCALE in
  let points' := stroke_points (buffer_of (entity_id state) (final (mousemove stage e w))) in
  points' = points \/
  (points' = points ++ [coord_x aligned; coord_y aligned] /\
   exists last,
     getLastPointOfLine points = Some last /\
     hypot_lt (coord_x last - coord_x pos) (coord_y last - coord_y pos) minSpacingPx = false /\
     ~ (coord_x last == coord_x aligned /\ coord_y last == coord_y aligned)).
Proof.
  intros Hsel Hdraw Hsp Hpos Hprim Hbuf Htool Hmatch points aligned minSpacingPx points'.
  destruct (getSelectedEntity_inv w state a Hsel) as (Hsid & Hent & Had & Haid).
  set (id := entity_id state) in *.
  subst points'.
  unfold mousemove, bind, exec, gets, ret, updateLastCursorPos, getToolState. cbv beta.
  rewrite Hpos, Hprim. unfold bind, exec, ret. cbv beta iota.
  set (w1 := set_lastCursorPos (Some pos) w).
  assert (Hd1 : same_document w w1) by (subst w1; frame).
  destruct (same_document_reads w w1 id Hd1) as (Had1 & _ & Hbuf1 & _ & Hsel1).
  assert (Hb : buffer_of id w = Some buf) by (unfold buffer_of; rewrite Had; exact Hbuf).
  rewrite Hb in Hbuf1. rewrite Had in Had1.
  assert (Hds : drawableSelection w1 = Some state).
  { unfold drawableSelection. rewrite Hsel1, Hsel, Hdraw.
    replace (spaceKey w1) with (spaceKey w) by (subst w1; frame).
    rewrite Hsp. reflexivity. }
  assert (Hidle : stroke_points (buffer_of id (renderPreview w1)) = points).
  { assert (Hd : same_document w1 (renderPreview w1)) by frame.
    destruct (same_document_reads _ _ id Hd) as (_ & _ & -> & _).
    rewrite Hbuf1. reflexivity. }
  assert (Hpushed : forall obj pt,
            stroke_points (Some obj) = points ++ [coord_x pt; coord_y pt] ->
            stroke_points
              (buffer_of id
                 (final match setBuffer id obj w1 with
                        | Done _ s' => Done tt (renderPreview (set_lastAddedPoint (Some pt) s'))
                        | Thrown s' => Thrown s'
                        end))
            = points ++ [coord_x pt; coord_y pt]).
  { intros obj pt Hobj.
    destruct (setBuffer_final id obj w1 a Had1) as (Hb2 & _).
    destruct (setBuffer id obj w1) as [[] s' | s']; simpl in *.
    - assert (Hd : same_document s' (renderPreview (set_lastAddedPoint (Some pt) s')))
        by frame.
      destruct (same_document_reads _ _ id Hd) as (_ & _ & -> & _).
      rewrite Hb2. exact Hobj.
    - rewrite Hb2. exact Hobj. }
  assert (Hdiff := differs_test).
  destruct Htool as [Htool | Htool]; rewrite Htool in Hmatch;
    destruct buf as [o | o | o | o]; try discriminate Hmatch;
    rewrite Htool, Hds; cbv beta iota; fold id; rewrite Hbuf1; cbv beta iota;
    subst points aligned minSpacingPx; unfold activeWidth; rewrite Htool;
    simpl stroke_points in *;
    match goal with
    | |- context [getLastPointOfLine ?pts] =>
        destruct (getLastPointOfLine pts) as [last |] eqn:Hlast;
        [| left; exact Hidle]
    end;
    rewrite getNextPoint_spec; unfold activeWidth; rewrite Htool;
    match goal with
    | |- context [hypot_lt ?dx ?dy ?m] =>
        destruct (hypot_lt dx dy m) eqn:Hnear; [left; exact Hidle |]
    end;
    cbv beta iota;
    match goal with
    | |- context [negb (num_eqb ?x1 ?x2) || negb (num_eqb ?y1 ?y2)] =>
        destruct (negb (num_eqb x1 x2) || negb (num_eqb y1 y2)) eqn:Hnew;
        [| left; exact Hidle]
    end;
    (right; split;
     [ match goal with
       | |- context [setBuffer id ?obj w1] =>
           match goal with
           | |- context [set_lastAddedPoint (Some ?pt)] =>
               refine (eq_trans _ (Hpushed obj pt eq_refl));
               destruct (setBuffer id obj w1) as [[] s' | s']; reflexivity
           end
       end
     | exists last; split; [reflexivity |]; split; [exact Hnear |];
       apply (Hdiff last); exact Hnew ]).
Qed.

(** C2, as the handlers have it.  A pointer move over a brush or eraser
    stroke in progress either leaves the stored points as they are or
    appends one point, the cursor position brought into the entity's
    coordinates and aligned to the tool.  It appends only when the stroke
    already has a last point, the cursor position itself, as it came from
    the stage, lies at least the tool width times the spacing scale away
    from that last stored point, and the point to append is not the last
    stored point again.  So a pointer move never appends a point that
    coincides with the last stored one; the distance from the last stored
    point to the appended one is not bounded. *)
Theorem mousemove_appends_spaced_point (stage : Stage) (e : MouseEvent) (w : World)
  (state : LayerEntity) (a : CanvasLayer) (buf : CanvasObject) (pos : Coordinate) :
  getSelectedEntity w = Some (state, a) ->
  isDrawableEntity state = true ->
  spaceKey w = false ->
  getScaledCursorPosition stage = Some pos ->
  getIsPrimaryMouseDown e = true ->
  _drawingBuffer a = Some buf ->
  selected (toolState w) = Tool.brush \/ selected (toolState w) = Tool.eraser ->
  bufferMatchesTool (selected (toolState w)) buf = true ->
  let points := stroke_points (Some buf) in
  let aligned :=
    alignCoordForTool (offsetCoord pos (position state)) (activeWidth (toolState w)) in
  let minSpacingPx := activeWidth (toolState w) * BRUSH_SPACING_TARGET_SCALE in
  let points' := stroke_points (buffer_of (entity_id state) (final (mousemove stage e w))) in
  points' = points \/
  (points' = points ++ [coord_x aligned; coord_y aligned] /\
   exists last,
     getLastPointOfLine points = Some last /\
     (Q2R minSpacingPx <= hypot (coord_x last - coord_x pos) (coord_y last - coord_y pos))%R /\
     ~ (coord_x last == coord_x aligned /\ coord_y last == coord_y aligned)).
Proof.
  intros Hsel Hdraw Hsp Hpos Hprim Hbuf Htool Hmatch points aligned minSpacingPx points'.
  destruct (mousemove_stroke_spec stage e w state a buf pos
              Hsel Hdraw Hsp Hpos Hprim Hbuf Htool Hmatch)
    as [Hsame | (Happ & last & Hlast & Hfar & Hnew)].
  - left. exact Hsame.
  - right. split; [exact Happ |].
    exists last. split; [exact Hlast |]. split; [| exact Hnew].
    apply hypot_ge_correct. exact Hfar.
Qed.

End StrokeFacts.

(** A move of ten pixels along a brush stroke of width 50. *)
Lemma mousemove_appends_spaced_point_witness :
  let points' :=
    stroke_points
      (buffer_of layerId
         (final (mousemove (H := plainCollaborators)
                   (stageAt {| coord_x := 20; coord_y := 10 |}) primaryButton
                   (dragging Tool.brush brushBuffer)))) in
  points' = [10; 10] \/ points' = [10; 10; 20; 10].
Proof.
  intros points'.
  destruct (mousemove_appends_spaced_point (H := plainCollaborators)
              (stageAt {| coord_x := 20; coord_y := 10 |}) primaryButton
              (dragging Tool.brush brushBuffer) (emptyLayer origin)
              (set_drawingBuffer (Some brushBuffer) (newCanvasLayer (emptyLayer origin)))
              brushBuffer {| coord_x := 20; coord_y := 10 |}
              eq_refl eq_refl eq_refl eq_refl eq_refl eq_refl (or_introl eq_refl) eq_refl)
    as [Hsame | (Happ & _)].
  - left. exact Hsame.
  - right. exact Happ.
Defined.

(** C2 fails as stated.  With a brush of width 50 and a spacing scale of
    one tenth the spacing is 5.  A stroke begun at (0, 0) and moved to
    (4.4, 2.4) passes the filter, the cursor being a little over 5 away,
    and stores the aligned point (4, 2): two consecutive stored points less
    than 5 apart.  And an eraser stroke begun at (3, 3) that the pointer
    leaves from (3, 3) is committed with the point (3, 3) stored twice in a
    row: a point coincident with the last stored one was appended. *)
Lemma stored_points_closer_than_spacing :
  let at_ x y := stageAt {| coord_x := x; coord_y := y |} in
  let moved :=
    run (H := plainCollaborators)
        [MouseDown (at_ 0 0) primaryButton; MouseMove (at_ (44 # 10) (24 # 10)) primaryButton]
        (worldWith Tool.brush origin) in
  let left_ :=
    run (H := plainCollaborators)
        [MouseDown (at_ 3 3) primaryButton; MouseLeave (at_ 3 3) primaryButton]
        (worldWith Tool.eraser origin) in
  (stroke_points (buffer_of layerId moved) = [0; 0; 4; 2] /\
   (hypot (4 - 0) (2 - 0)
    < Q2R (brush_width (toolState moved)
           * BRUSH_SPACING_TARGET_SCALE (Collaborators := plainCollaborators)))%R) /\
  (map (fun obj => stroke_points (Some obj)) (entity_objects layerId left_)
   = [[3; 3; 3; 3]]).
Proof.
  split; [split |].
  - vm_compute. reflexivity.
  - apply hypot_lt_correct. vm_compute. reflexivity.
  - vm_compute. reflexivity.
Qed.
